(** * The Naver Commerce option example ([example-naver-option.js])

    A shallow embedding of [getProductOptionExample]: the values the script
    handles are JavaScript values, its statements are computations that log
    to the console, call the API client and complete normally, by [return]
    or by a thrown value. *)

From Stdlib Require Import ZArith Ascii String List Bool Lia.
From stdpp Require Import base strings gmap list pretty.

Import ListNotations.
Local Open Scope string_scope.
Local Open Scope Z_scope.

Set Warnings "-register-all".

(** ** JavaScript values *)

(** The data the script reads is JSON-like: the response of the upstream
    API and whatever the client's parser returns.  Numbers are the integers
    (identifiers, stock quantities, character limits), the model has no
    fractional number; an object lists its own enumerable properties in
    enumeration order, keys distinct. *)
Inductive value : Type :=
| VUndefined
| VNull
| VBool (b : bool)
| VNum (n : Z)
| VStr (s : string)
| VArr (elems : list value)
| VObj (props : list (string * value)).

(** What a [throw] carries and what a promise rejects with: any value, an
    [Error] object as a rule, but [null], [undefined] or a string as well. *)
Definition Error : Type := value.

(** An [Error] object with the given message. *)
Definition mkError (message : value) : Error := VObj [("message", message)].

(** A runtime [TypeError]; the wording of its message is the engine's. *)
Inductive type_error : Type :=
| cannot_read_properties (base : value) (prop : string)
| is_not_a_function (prop : string)
| cannot_convert_to_primitive.

(** What evaluating an expression gives: a value, or what it throws. *)
Inductive result (A : Type) : Type :=
| Returns (a : A)
| Throws (e : Error).
Arguments Returns {A} a.
Arguments Throws {A} e.

Definition result_bind {A B} (r : result A) (f : A -> result B) : result B :=
  match r with
  | Returns a => f a
  | Throws e => Throws e
  end.

Notation "'let?' x := r 'in' k" := (result_bind r (fun x => k))
  (at level 10, x name, r at level 100, k at level 200).

(** [!v] is [negb (truthy v)]: the falsy values are [undefined], [null],
    [false], [0] and the empty string; every array and object is truthy. *)
Definition truthy (v : value) : bool :=
  match v with
  | VUndefined | VNull => false
  | VBool b => b
  | VNum n => negb (n =? 0)
  | VStr s => negb (String.eqb s "")
  | VArr _ | VObj _ => true
  end.

(** [a || b] on values: [a] when it is truthy, otherwise [b]. *)
Definition or_else (a b : value) : value := if truthy a then a else b.

Definition is_nullish (v : value) : bool :=
  match v with
  | VUndefined | VNull => true
  | _ => false
  end.

Fixpoint lookup_prop (p : string) (props : list (string * value)) : value :=
  match props with
  | [] => VUndefined
  | (k, v) :: rest => if String.eqb k p then v else lookup_prop p rest
  end.

(** What [error.message] reads of a thrown value that has properties: the
    property of an object, [undefined] of a string, number or boolean. *)
Definition message (error : Error) : value :=
  match error with
  | VObj props => lookup_prop "message" props
  | _ => VUndefined
  end.

Fixpoint has_prop (p : string) (props : list (string * value)) : bool :=
  match props with
  | [] => false
  | (k, _) :: rest => String.eqb k p || has_prop p rest
  end.

(** The number of UTF-16 code units of a string held as UTF-8 bytes: one
    per code point, two for a code point of four bytes. *)
Fixpoint utf16_length (s : string) : Z :=
  match s with
  | EmptyString => 0
  | String c rest =>
      let b := Z.of_nat (nat_of_ascii c) in
      (if (128 <=? b) && (b <? 192) then 0 else if 240 <=? b then 2 else 1)
      + utf16_length rest
  end.

Fixpoint join_strings (sep : string) (l : list string) : string :=
  match l with
  | [] => ""
  | [s] => s
  | s :: rest => s +:+ sep +:+ join_strings sep rest
  end.

(** ** [JSON.stringify(v, null, 2)] *)

Definition newline : string := String "010"%char "".
Definition double_quote : string := String "034"%char "".
Definition backslash : string := String "092"%char "".

Definition hex_digit (n : nat) : ascii :=
  ascii_of_nat (if (n <? 10)%nat then 48 + n else 87 + n).

(** One character of a quoted JSON string: the two-character escapes, a
    [\u00xx] escape for the other control characters, the character itself
    otherwise (the bytes of a character beyond ASCII pass unchanged). *)
Definition quote_char (c : ascii) : string :=
  let n := nat_of_ascii c in
  if (n =? 8)%nat then backslash +:+ "b"
  else if (n =? 9)%nat then backslash +:+ "t"
  else if (n =? 10)%nat then backslash +:+ "n"
  else if (n =? 12)%nat then backslash +:+ "f"
  else if (n =? 13)%nat then backslash +:+ "r"
  else if (n =? 34)%nat then backslash +:+ double_quote
  else if (n =? 92)%nat then backslash +:+ backslash
  else if (n <? 32)%nat then
    backslash +:+ "u00" +:+ String (hex_digit (n / 16)) (String (hex_digit (n mod 16)) "")
  else String c "".

Fixpoint quote_chars (s : string) : string :=
  match s with
  | EmptyString => ""
  | String c rest => quote_char c +:+ quote_chars rest
  end.

Definition QuoteJSONString (s : string) : string :=
  double_quote +:+ quote_chars s +:+ double_quote.

Definition gap : string := "  ".

(** The largest integer below which a double holds every integer. *)
Definition MAX_SAFE_INTEGER : Z := 9007199254740991.

(** ** Statements *)

(** What the script does that the outside sees: console output and the
    calls to the API client. *)
Inductive event : Type :=
| ConsoleLog (args : list value)
| ConsoleError (args : list value)
| Construct (clientId clientSecret : value)
| CallGetChannelProductDetail (productId : value)
| CallParseOptionInfo (optionInfo productId : value).

(** How a statement completes: normally, by [return], or by [throw]. *)
Inductive completion (A : Type) : Type :=
| Normal (a : A)
| Return
| Throw (e : Error).
Arguments Normal {A} a.
Arguments Return {A}.
Arguments Throw {A} e.

(** A statement: the events it gives rise to, in order, and its completion. *)
Definition M (A : Type) : Type := (list event * completion A)%type.

Definition ret {A} (a : A) : M A := ([], Normal a).

Definition bind {A B} (m : M A) (k : A -> M B) : M B :=
  match m with
  | (t, Normal a) => let (t', c) := k a in ((t ++ t')%list, c)
  | (t, Return) => (t, Return)
  | (t, Throw e) => (t, Throw e)
  end.

Notation "'let!' x := m 'in' k" := (bind m (fun x => k))
  (at level 10, x name, m at level 100, k at level 200).
Notation "m ;; k" := (bind m (fun _ => k))
  (at level 100, k at level 200, right associativity).

Definition lift {A} (r : result A) : M A :=
  match r with
  | Returns a => ([], Normal a)
  | Throws e => ([], Throw e)
  end.

Definition emit (ev : event) : M unit := ([ev], Normal tt).

Definition console_log (args : list value) : M unit := emit (ConsoleLog args).
Definition console_error (args : list value) : M unit := emit (ConsoleError args).

(** [return;] *)
Definition return_ : M unit := ([], Return).

(** [if (c) { body }] *)
Definition when_ (c : bool) (body : M unit) : M unit :=
  if c then body else ret tt.

(** [try { body } catch (error) { handler }] *)
Definition try_catch (body : M unit) (handler : Error -> M unit) : M unit :=
  match body with
  | (t, Throw e) => let (t', c) := handler e in ((t ++ t')%list, c)
  | done => done
  end.

(** A call of a function whose body is [body]: its [return] ends the call,
    not the caller. *)
Definition call (body : M unit) : M unit :=
  match body with
  | (t, Return) => (t, Normal tt)
  | done => done
  end.

(** ** The API client *)

(** The interface of the [NaverCommerceAPI] class, which the script imports
    from [./src/services/naver-commerce.js]: a client has the two methods
    the script calls.  [getChannelProductDetail] gives what its promise
    settles to, a product detail or [null] when it resolves, the value it
    rejects with otherwise; the constructor gives a client. *)
Record APIClient : Type := mkAPIClient {
  getChannelProductDetail : value -> result value;
  parseOptionInfo : value -> value -> result value
}.

(** ** The texts the script prints *)

Definition missing_credentials_message : string :=
  ".env 파일에 NAVER_CLIENT_ID 및 NAVER_CLIENT_SECRET이 설정되어야 합니다.".
Definition start_message (productId : string) : string :=
  "🔍 상품 옵션 조회 시작 (Product ID: " +:+ productId +:+ ")".
Definition not_found_message : string :=
  "상품 정보를 가져올 수 없습니다. ID가 정확한지, 판매중인 상품인지 확인해주세요.".
Definition product_name_prefix : string := "상품명: ".
Definition no_options_notice : string :=
  "ℹ️ 이 상품은 설정된 옵션이 없는 단품 상품입니다.".
Definition raw_data_header : string := newline +:+ "--- [원본 옵션 데이터 구조] ---".
Definition breakdown_header : string := newline +:+ "--- [유형별 옵션 파싱 결과] ---".
Definition simple_header : string := "[단독형 옵션]".
Definition combination_header : string := "[조합형 옵션]".
Definition group_names_prefix : string := "  - 옵션 항목명: ".
Definition custom_header : string := "[직접 입력형 옵션]".
Definition standard_header : string := "[표준형 옵션]".
Definition parser_header : string := newline +:+ "--- [내장 메서드 파싱 결과] ---".
Definition error_prefix : string := "❌ 조회 중 오류 발생:".

(** ** What a run shows *)

Definition is_collaborator_call (ev : event) : bool :=
  match ev with
  | Construct _ _ | CallGetChannelProductDetail _ | CallParseOptionInfo _ _ => true
  | ConsoleLog _ | ConsoleError _ => false
  end.

(** How many times the run constructs or calls the API client. *)
Definition collaborator_calls (t : list event) : nat :=
  length (List.filter is_collaborator_call t).

(** The [optionInfo] arguments of the calls of [parseOptionInfo], in order. *)
Fixpoint parse_calls (t : list event) : list value :=
  match t with
  | [] => []
  | CallParseOptionInfo optionInfo _ :: rest => optionInfo :: parse_calls rest
  | _ :: rest => parse_calls rest
  end.

Definition is_console (ev : event) : bool :=
  match ev with
  | ConsoleLog _ | ConsoleError _ => true
  | _ => false
  end.

(** [console.log(s)] for each line [s]. *)
Definition logged (lines : list string) : list event :=
  map (fun s => ConsoleLog [VStr s]) lines.

Definition section_headers : list string :=
  [simple_header; combination_header; custom_header; standard_header].

(** Whether the event prints one of the four section headers. *)
Definition is_section_header (ev : event) : bool :=
  match ev with
  | ConsoleLog [VStr s] => existsb (String.eqb s) section_headers
  | _ => false
  end.

(** Whether the event prints the line of the group names. *)
Definition is_group_names_line (ev : event) : bool :=
  match ev with
  | ConsoleLog [VStr s] => String.prefix group_names_prefix s
  | _ => false
  end.

(** A collection that is absent ([undefined], or [null]) or empty. *)
Inductive absent_or_empty : value -> Prop :=
| absent_undefined : absent_or_empty VUndefined
| absent_null : absent_or_empty VNull
| empty_array : absent_or_empty (VArr []).

(** The entries of a collection: none when it is absent, the elements of
    the array otherwise. *)
Inductive entries_of : value -> list value -> Prop :=
| entries_undefined : entries_of VUndefined []
| entries_null : entries_of VNull []
| entries_array elems : entries_of (VArr elems) elems.

(** ** What a run shows, event by event *)

Definition is_console_log (ev : event) : bool :=
  match ev with
  | ConsoleLog _ => true
  | _ => false
  end.

Definition is_console_error (ev : event) : bool :=
  match ev with
  | ConsoleError _ => true
  | _ => false
  end.

Definition not_console_error (ev : event) : bool := negb (is_console_error ev).

(** Every event of the statement satisfies [P]. *)
Definition emits (P : event -> bool) {A} (m : M A) : Prop :=
  Forall (fun ev => P ev = true) (fst m).

(** An expression that throws nothing but values with properties: never
    [null], never [undefined]. *)
Definition throws_objects {A} (r : result A) : Prop :=
  forall e, r = Throws e -> is_nullish e = false.

(** The same of a statement. *)
Definition raises_objects {A} (m : M A) : Prop :=
  forall e, snd m = Throw e -> is_nullish e = false.

(** The constructor and client calls of a run, in order. *)
Definition collaborator_events (t : list event) : list event :=
  List.filter is_collaborator_call t.

(** Nothing follows a [console.error]. *)
Definition ends_at_error (t : list event) : Prop :=
  forall t1 ev t2, t = (t1 ++ ev :: t2)%list -> is_console_error ev = true -> t2 = [].

(** ** The shape of the option information *)

Definition is_primitive (v : value) : bool :=
  match v with
  | VArr _ | VObj _ => false
  | _ => true
  end.

(** An entry as the upstream API gives it: an object whose properties hold
    strings, numbers, booleans or [null]. *)
Definition plain_entry (e : value) : Prop :=
  exists props, e = VObj props /\ forall p, is_primitive (lookup_prop p props) = true.

(** A collection of an [OptionInfo] object: absent, or an array of entries. *)
Definition collection (props : list (string * value)) (name : string)
    (entries : list value) : Prop :=
  entries_of (lookup_prop name props) entries /\ Forall plain_entry entries.

(** ** The report as the specification words it *)

(** The section of a variant: nothing when the variant has no entry,
    otherwise its header and one line for each entry. *)
Definition spec_section (header : string) (lines : list string) : list string :=
  match lines with
  | [] => []
  | _ => header :: lines
  end.

(** The section of the combinations has the line of the group names, once,
    between the header and the entries. *)
Definition spec_combination_section (groupNames : string) (lines : list string)
  : list string :=
  match lines with
  | [] => []
  | _ => combination_header :: (group_names_prefix +:+ groupNames) :: lines
  end.

(** The sections in their fixed order: simple, combinations, custom,
    standards. *)
Definition spec_report (simple : list string) (groupNames : string)
    (combinations custom standards : list string) : list string :=
  (spec_section simple_header simple
   ++ spec_combination_section groupNames combinations
   ++ spec_section custom_header custom
   ++ spec_section standard_header standards)%list.

(** The display name of a standard option as the specification words it:
    [optionName] when it is present, [standardOptionName] otherwise, the
    first that is not [null] or [undefined]. *)
Definition first_non_null (optionName standardOptionName : value) : value :=
  if is_nullish optionName then standardOptionName else optionName.

(** The four collections of an [OptionInfo] object are all absent or empty. *)
Definition no_entries (props : list (string * value)) : Prop :=
  absent_or_empty (lookup_prop "optionSimple" props)
  /\ absent_or_empty (lookup_prop "optionCombinations" props)
  /\ absent_or_empty (lookup_prop "optionCustom" props)
  /\ absent_or_empty (lookup_prop "optionStandards" props).

(** [parseOptionInfo] is called with a present [optionInfo], once, or not
    at all. *)
Definition at_most_one_present (calls : list value) : Prop :=
  (length calls <= 1)%nat /\ Forall (fun optionInfo => truthy optionInfo = true) calls.

(** ** An engine for the closed examples *)

(** The theorems hold for every wording of the messages, every conversion
    of strings to numbers and every text of the large numbers.  The closed
    examples run with the wording below and with a comparison that is exact
    on the strings of decimal digits. *)
Definition sample_TypeError_message (t : type_error) : string :=
  match t with
  | cannot_read_properties VNull prop =>
      "Cannot read properties of null (reading '" +:+ prop +:+ "')"
  | cannot_read_properties _ prop =>
      "Cannot read properties of undefined (reading '" +:+ prop +:+ "')"
  | is_not_a_function prop => prop +:+ " is not a function"
  | cannot_convert_to_primitive => "Cannot convert object to primitive value"
  end.

(** No closed example prints an integer beyond the safe ones. *)
Definition sample_large_Number_toString (n : Z) : string := pretty n.

Fixpoint digits_gt0 (s : string) : option bool :=
  match s with
  | EmptyString => Some false
  | String c rest =>
      let n := nat_of_ascii c in
      if ((48 <=? n) && (n <=? 57))%nat then
        match digits_gt0 rest with
        | Some b => Some ((49 <=? n)%nat || b)
        | None => None
        end
      else None
  end.

Definition sample_StringToNumber_gt0 (s : string) : bool :=
  match digits_gt0 s with
  | Some b => b
  | None => false
  end.

(** A client for the closed examples: the detail fetch and the parser are
    given. *)
Definition sample_client (detail : value -> result value)
    (parser : value -> value -> result value) (clientId clientSecret : value)
  : APIClient :=
  mkAPIClient detail parser.

Definition sample_env : gmap string string :=
  {[ "NAVER_CLIENT_ID" := "client-id"; "NAVER_CLIENT_SECRET" := "client-secret" ]}.

(** The data of the closed examples. *)

Definition secret_only_env : gmap string string :=
  {[ "NAVER_CLIENT_SECRET" := "client-secret" ]}.

Definition empty_secret_env : gmap string string :=
  {[ "NAVER_CLIENT_ID" := "client-id"; "NAVER_CLIENT_SECRET" := "" ]}.

Definition simple_entry : value :=
  VObj [("groupName", VStr "Color"); ("name", VStr "Red"); ("id", VStr "1")].

Definition combination_entry : value :=
  VObj [("optionName", VStr "Red/L"); ("id", VStr "c1"); ("stockQuantity", VNum 5)].

Definition custom_entry : value :=
  VObj [("groupName", VStr "Engraving"); ("inputLimit", VNum 10)].

Definition standard_entry : value :=
  VObj [("standardOptionName", VStr "Blue"); ("id", VStr "s1")].

(** A standard option whose [optionName] is present and empty. *)
Definition empty_name_entry : list (string * value) :=
  [("optionName", VStr ""); ("standardOptionName", VStr "Blue"); ("id", VStr "s1")].

Definition combination_fixture : list (string * value) :=
  [("optionCombinations", VArr [combination_entry]);
   ("optionCombinationGroupNames", VArr [VStr "Color"; VStr "Size"])].

Definition report_fixture : list (string * value) :=
  [("optionSimple", VArr [simple_entry]);
   ("optionCombinations", VArr [combination_entry]);
   ("optionCombinationGroupNames", VArr [VStr "Color"; VStr "Size"]);
   ("optionCustom", VArr [custom_entry]);
   ("optionStandards", VArr [standard_entry])].

(** An [OptionInfo] object with an empty collection and three absent ones. *)
Definition no_entries_fixture : list (string * value) :=
  [("optionSimple", VArr []); ("optionCustom", VNull)].

(** A product that has no [optionInfo]. *)
Definition single_product : value :=
  VObj [("name", VStr "Shirt"); ("originProduct", VObj [("detailAttribute", VObj [])])].

(** A product whose [optionInfo] is the given one. *)
Definition product_with (optionInfo : value) : value :=
  VObj [("name", VStr "Shirt");
        ("originProduct", VObj [("detailAttribute", VObj [("optionInfo", optionInfo)])])].

(** An [optionSimple] array whose second entry is [null]. *)
Definition null_entry_fixture : list (string * value) :=
  [("optionSimple", VArr [simple_entry; VNull; simple_entry]);
   ("optionStandards", VArr [standard_entry])].

(** Group names that are a string instead of an array. *)
Definition string_group_names_fixture : list (string * value) :=
  [("optionCombinations", VArr [combination_entry]);
   ("optionCombinationGroupNames", VStr "Color")].

(** Group names that are [false]. *)
Definition false_group_names_fixture : list (string * value) :=
  [("optionCombinations", VArr [combination_entry]);
   ("optionCombinationGroupNames", VBool false)].

Definition echo_parser (optionInfo productId : value) : result value :=
  Returns (VObj [("productId", productId)]).

(** ** Expressions *)

Section Script.

(** The message the engine gives a [TypeError] it raises. *)
Variable TypeError_message : type_error -> string.

(** Whether [s > 0] holds for a string [s], that is whether the number the
    string converts to is positive. *)
Variable StringToNumber_gt0 : string -> bool.

(** The text the engine gives an integer beyond the safe ones: that of the
    nearest double, which need not show the digits of the integer. *)
Variable large_Number_toString : Z -> string.

Definition TypeError (t : type_error) : Error :=
  mkError (VStr (TypeError_message t)).

(** [String(n)] for a number: the decimal digits of a safe integer. *)
Definition Number_toString (n : Z) : string :=
  if Z.abs n <=? MAX_SAFE_INTEGER then pretty n else large_Number_toString n.

(** [v.p] for the data properties the script reads.  Of these names only
    [length] is a built-in property of arrays and strings; numbers and
    booleans have none of them. *)
Definition Get (v : value) (p : string) : result value :=
  match v with
  | VUndefined | VNull => Throws (TypeError (cannot_read_properties v p))
  | VObj props => Returns (lookup_prop p props)
  | VArr elems =>
      Returns (if String.eqb p "length" then VNum (Z.of_nat (length elems)) else VUndefined)
  | VStr s =>
      Returns (if String.eqb p "length" then VNum (utf16_length s) else VUndefined)
  | VBool _ | VNum _ => Returns VUndefined
  end.

(** [v?.p]: [undefined] when [v] is [undefined] or [null]. *)
Definition Get_optional (v : value) (p : string) : result value :=
  if is_nullish v then Returns VUndefined else Get v p.

(** [Array.prototype.join] over the strings of the elements: [undefined]
    and [null] elements give the empty string. *)
Definition join_with (to_string : value -> result string) (sep : string) :=
  fix go (elems : list value) : result (list string) :=
    match elems with
    | [] => Returns []
    | x :: rest =>
        let? s := (if is_nullish x then Returns "" else to_string x) in
        let? ss := go rest in
        Returns (s :: ss)
    end.

(** [String(v)], the conversion a template literal applies.  A plain object
    converts through [Object.prototype.toString] unless an own property
    hides it: such a property holds data, nothing callable, and the
    conversion throws. *)
Fixpoint ToString (v : value) : result string :=
  match v with
  | VUndefined => Returns "undefined"
  | VNull => Returns "null"
  | VBool b => Returns (if b then "true" else "false")
  | VNum n => Returns (Number_toString n)
  | VStr s => Returns s
  | VArr elems =>
      let? ss := join_with ToString "," elems in
      Returns (join_strings "," ss)
  | VObj props =>
      if has_prop "toString" props
      then Throws (TypeError cannot_convert_to_primitive)
      else Returns "[object Object]"
  end.

(** [arr.join(sep)] as a method call. *)
Definition call_join (arr : value) (sep : string) : result string :=
  match arr with
  | VArr elems =>
      let? ss := join_with ToString sep elems in
      Returns (join_strings sep ss)
  | VUndefined | VNull => Throws (TypeError (cannot_read_properties arr "join"))
  | _ => Throws (TypeError (is_not_a_function "join"))
  end.

(** [v > 0]. *)
Definition gt0 (v : value) : result bool :=
  match v with
  | VUndefined | VNull => Returns false
  | VBool b => Returns b
  | VNum n => Returns (0 <? n)
  | VStr s => Returns (StringToNumber_gt0 s)
  | VArr _ | VObj _ =>
      let? s := ToString v in
      Returns (StringToNumber_gt0 s)
  end.



(** ** [JSON.stringify(v, null, 2)], the serialisation *)

(** The text of a value at the given indentation, [None] for [undefined].
    An [undefined] element of an array is written [null]; a property whose
    value is [undefined] is left out. *)
Fixpoint SerializeJSONProperty (indent : string) (v : value) {struct v} : option string :=
  let inner := indent +:+ gap in
  let wrap (opening closing : string) (partial : list string) :=
    match partial with
    | [] => opening +:+ closing
    | _ => opening +:+ newline +:+ inner
           +:+ join_strings ("," +:+ newline +:+ inner) partial
           +:+ newline +:+ indent +:+ closing
    end in
  match v with
  | VUndefined => None
  | VNull => Some "null"
  | VBool b => Some (if b then "true" else "false")
  | VNum n => Some (Number_toString n)
  | VStr s => Some (QuoteJSONString s)
  | VArr elems =>
      Some (wrap "[" "]"
        ((fix go (l : list value) : list string :=
            match l with
            | [] => []
            | x :: rest =>
                match SerializeJSONProperty inner x with
                | Some s => s
                | None => "null"
                end :: go rest
            end) elems))
  | VObj props =>
      Some (wrap "{" "}"
        ((fix go (l : list (string * value)) : list string :=
            match l with
            | [] => []
            | (k, x) :: rest =>
                match SerializeJSONProperty inner x with
                | Some s => (QuoteJSONString k +:+ ": " +:+ s) :: go rest
                | None => go rest
                end
            end) props))
  end.

(** [JSON.stringify(v, null, 2)]: a string, or [undefined] for [undefined]. *)
Definition JSON_stringify (v : value) : value :=
  match SerializeJSONProperty "" v with
  | Some s => VStr s
  | None => VUndefined
  end.

(** ** Method calls and conditions *)

(** [arr.forEach(callback)] *)
Definition forEach (arr : value) (callback : value -> M unit) : M unit :=
  match arr with
  | VArr elems =>
      (fix go (l : list value) : M unit :=
         match l with
         | [] => ret tt
         | x :: rest => call (callback x) ;; go rest
         end) elems
  | VUndefined | VNull => lift (Throws (TypeError (cannot_read_properties arr "forEach")))
  | _ => lift (Throws (TypeError (is_not_a_function "forEach")))
  end.

(** [c && c.length > 0] as a condition. *)
Definition present_and_non_empty (c : value) : result bool :=
  if truthy c then
    let? len := Get c "length" in
    gt0 len
  else Returns false.

(** [new NaverCommerceAPI(clientId, clientSecret)] *)
Variable NaverCommerceAPI : value -> value -> APIClient.

Definition new_NaverCommerceAPI (clientId clientSecret : value) : M APIClient :=
  emit (Construct clientId clientSecret) ;;
  ret (NaverCommerceAPI clientId clientSecret).

Definition await_getChannelProductDetail (api : APIClient) (productId : value) : M value :=
  emit (CallGetChannelProductDetail productId) ;;
  lift (getChannelProductDetail api productId).

Definition call_parseOptionInfo (api : APIClient) (optionInfo productId : value) : M value :=
  emit (CallParseOptionInfo optionInfo productId) ;;
  lift (parseOptionInfo api optionInfo productId).

(** ** The script *)

(** [process.env.NAME]: the string the variable is set to, or [undefined]. *)
Definition process_env (env : gmap string string) (name : string) : value :=
  match env !! name with
  | Some s => VStr s
  | None => VUndefined
  end.

(** The lines the four sections print for one entry. *)

Definition simple_line (opt : value) : result string :=
  let? groupName := Get opt "groupName" in
  let? s1 := ToString groupName in
  let? name := Get opt "name" in
  let? s2 := ToString name in
  let? id := Get opt "id" in
  let? s3 := ToString id in
  Returns ("  - " +:+ s1 +:+ ": " +:+ s2 +:+ " (ID: " +:+ s3 +:+ ")").

Definition combination_line (combo : value) : result string :=
  let? optionName := Get combo "optionName" in
  let? s1 := ToString optionName in
  let? id := Get combo "id" in
  let? s2 := ToString id in
  let? stockQuantity := Get combo "stockQuantity" in
  let? s3 := ToString stockQuantity in
  Returns ("  - 조합: " +:+ s1 +:+ " (ID: " +:+ s2 +:+ ", 재고: " +:+ s3 +:+ "개)").

Definition custom_line (custom : value) : result string :=
  let? groupName := Get custom "groupName" in
  let? s1 := ToString groupName in
  let? inputLimit := Get custom "inputLimit" in
  let? s2 := ToString inputLimit in
  Returns ("  - " +:+ s1 +:+ " (글자수 제한: " +:+ s2 +:+ "자)").

(** [std.optionName || std.standardOptionName] *)
Definition standard_name (std : value) : result value :=
  let? optionName := Get std "optionName" in
  if truthy optionName then Returns optionName
  else Get std "standardOptionName".

Definition standard_line (std : value) : result string :=
  let? name := standard_name std in
  let? s1 := ToString name in
  let? id := Get std "id" in
  let? s2 := ToString id in
  Returns ("  - " +:+ s1 +:+ " (ID: " +:+ s2 +:+ ")").

(** [console.log] of a line that a template literal builds. *)
Definition log_line (line : result string) : M unit :=
  let! s := lift line in
  console_log [VStr s].

(** The four sections, lines 61 to 94. *)

Definition simple_section (optionInfo : value) : M unit :=
  let! optionSimple := lift (Get optionInfo "optionSimple") in
  let! c := lift (present_and_non_empty optionSimple) in
  when_ c (
    console_log [VStr simple_header] ;;
    forEach optionSimple (fun opt => log_line (simple_line opt))).

Definition combination_section (optionInfo : value) : M unit :=
  let! optionCombinations := lift (Get optionInfo "optionCombinations") in
  let! c := lift (present_and_non_empty optionCombinations) in
  when_ c (
    console_log [VStr combination_header] ;;
    let! names := lift (Get optionInfo "optionCombinationGroupNames") in
    let groupNames := or_else names (VArr []) in
    log_line (let? joined := call_join groupNames ", " in
              Returns (group_names_prefix +:+ joined)) ;;
    forEach optionCombinations (fun combo => log_line (combination_line combo))).

Definition custom_section (optionInfo : value) : M unit :=
  let! optionCustom := lift (Get optionInfo "optionCustom") in
  let! c := lift (present_and_non_empty optionCustom) in
  when_ c (
    console_log [VStr custom_header] ;;
    forEach optionCustom (fun custom => log_line (custom_line custom))).

Definition standard_section (optionInfo : value) : M unit :=
  let! optionStandards := lift (Get optionInfo "optionStandards") in
  let! c := lift (present_and_non_empty optionStandards) in
  when_ c (
    console_log [VStr standard_header] ;;
    forEach optionStandards (fun std => log_line (standard_line std))).

(** [productDetail.originProduct?.detailAttribute?.optionInfo] *)
Definition read_optionInfo (productDetail : value) : result value :=
  let? originProduct := Get productDetail "originProduct" in
  let? detailAttribute := Get_optional originProduct "detailAttribute" in
  Get_optional detailAttribute "optionInfo".

(** The four sections in their order, lines 61 to 94. *)
Definition option_sections (optionInfo : value) : M unit :=
  simple_section optionInfo ;;
  combination_section optionInfo ;;
  custom_section optionInfo ;;
  standard_section optionInfo.

(** The formatter of the option information, lines 50 to 94. *)
Definition formatter (optionInfo : value) : M unit :=
  when_ (negb (truthy optionInfo)) (
    console_log [VStr no_options_notice] ;;
    return_) ;;
  console_log [VStr raw_data_header] ;;
  console_log [JSON_stringify optionInfo] ;;
  console_log [VStr breakdown_header] ;;
  option_sections optionInfo.

(** The client's own parser on the same data, lines 96 to 99. *)
Definition delegated_parser (naverAPI : APIClient) (optionInfo : value) (productId : string)
  : M unit :=
  console_log [VStr parser_header] ;;
  let! parsed := call_parseOptionInfo naverAPI optionInfo (VStr productId) in
  console_log [JSON_stringify parsed].

(** The body of the [try] statement, lines 36 to 99. *)
Definition try_block (naverAPI : APIClient) (productId : string) : M unit :=
  let! productDetail := await_getChannelProductDetail naverAPI (VStr productId) in
  when_ (negb (truthy productDetail)) (
    console_error [VStr not_found_message] ;;
    return_) ;;
  log_line (let? name := Get productDetail "name" in
            let? s := ToString name in
            Returns (product_name_prefix +:+ s)) ;;
  let! optionInfo := lift (read_optionInfo productDetail) in
  formatter optionInfo ;;
  delegated_parser naverAPI optionInfo productId.

(** The [catch] clause, line 102.  Reading [error.message] throws when the
    caught value is [null] or [undefined]. *)
Definition catch_clause (error : Error) : M unit :=
  let! message := lift (Get error "message") in
  console_error [VStr error_prefix; message].

(** The body of [getProductOptionExample], lines 20 to 104. *)
Definition getProductOptionExample_body (env : gmap string string) (productId : string) : M unit :=
  let CLIENT_ID := process_env env "NAVER_CLIENT_ID" in
  let CLIENT_SECRET := process_env env "NAVER_CLIENT_SECRET" in
  when_ (negb (truthy CLIENT_ID) || negb (truthy CLIENT_SECRET)) (
    console_error [VStr missing_credentials_message] ;;
    return_) ;;
  let! naverAPI := new_NaverCommerceAPI CLIENT_ID CLIENT_SECRET in
  console_log [VStr (start_message productId)] ;;
  try_catch (try_block naverAPI productId) catch_clause.

(** How the promise of an [async] function settles. *)
Inductive settled : Type :=
| Fulfilled
| Rejected (e : Error).

(** [getProductOptionExample(productId)]: the events of the run and how
    the promise the call returns settles.  Nothing handles a rejection of
    it: the script calls the function at top level and drops the promise. *)
Definition getProductOptionExample (env : gmap string string) (productId : string)
  : list event * settled :=
  match getProductOptionExample_body env productId with
  | (t, Normal _) | (t, Return) => (t, Fulfilled)
  | (t, Throw e) => (t, Rejected e)
  end.

Definition TARGET_PRODUCT_ID : string := "1234567890".

(** The script: line 108. *)
Definition main (env : gmap string string) : list event * settled :=
  getProductOptionExample env TARGET_PRODUCT_ID.

(** The lines of the entries as the specification words them: each entry
    is listed with its key fields, every field shown as the text a template
    literal gives its value. *)

(** [text] is what [${e.key}] shows. *)
Definition shows (e : value) (key text : string) : Prop :=
  exists v, Get e key = Returns v /\ ToString v = Returns text.

(** A simple option: its group name, its name and its identifier. *)
Definition spec_simple_line (e : value) (line : string) : Prop :=
  exists groupName name id,
    shows e "groupName" groupName /\ shows e "name" name /\ shows e "id" id
    /\ line = "  - " +:+ groupName +:+ ": " +:+ name +:+ " (ID: " +:+ id +:+ ")".

(** A combination: its option name, its identifier and its stock. *)
Definition spec_combination_line (e : value) (line : string) : Prop :=
  exists optionName id stockQuantity,
    shows e "optionName" optionName /\ shows e "id" id
    /\ shows e "stockQuantity" stockQuantity
    /\ line = "  - 조합: " +:+ optionName +:+ " (ID: " +:+ id
              +:+ ", 재고: " +:+ stockQuantity +:+ "개)".

(** A custom option: its group name and its limit of characters. *)
Definition spec_custom_line (e : value) (line : string) : Prop :=
  exists groupName inputLimit,
    shows e "groupName" groupName /\ shows e "inputLimit" inputLimit
    /\ line = "  - " +:+ groupName +:+ " (글자수 제한: " +:+ inputLimit +:+ "자)".

(** A standard option: its display name, the first truthy of [optionName]
    and [standardOptionName], and its identifier. *)
Definition spec_standard_line (e : value) (line : string) : Prop :=
  exists optionName standardOptionName name id,
    Get e "optionName" = Returns optionName
    /\ Get e "standardOptionName" = Returns standardOptionName
    /\ ToString (or_else optionName standardOptionName) = Returns name
    /\ shows e "id" id
    /\ line = "  - " +:+ name +:+ " (ID: " +:+ id +:+ ")".

(** The credentials are set: both variables hold a non-empty string. *)
Definition credentials (env : gmap string string) (clientId clientSecret : string) : Prop :=
  env !! "NAVER_CLIENT_ID" = Some clientId /\ clientId <> ""
  /\ env !! "NAVER_CLIENT_SECRET" = Some clientSecret /\ clientSecret <> "".

(** What a run shows before it enters the [try] statement. *)
Definition prelude (clientId clientSecret productId : string) : list event :=
  [Construct (VStr clientId) (VStr clientSecret);
   ConsoleLog [VStr (start_message productId)]].

(** The run on a product with option information, as far as the report. *)
Definition report_prefix (clientId clientSecret productId name : string)
    (optionInfo : value) : list event :=
  (prelude clientId clientSecret productId
   ++ [CallGetChannelProductDetail (VStr productId);
       ConsoleLog [VStr (product_name_prefix +:+ name)];
       ConsoleLog [VStr raw_data_header];
       ConsoleLog [JSON_stringify optionInfo];
       ConsoleLog [VStr breakdown_header]])%list.

(** A statement that writes to the console and nothing else, and that
    does not complete by [return]. *)
Definition plain {A} (m : M A) : Prop :=
  Forall (fun ev => is_console ev = true) (fst m) /\ snd m <> Return.

(** ** The laws of sequencing *)

Lemma bind_emit {A} (ev : event) (k : unit -> M A) :
  bind (emit ev) k = (ev :: fst (k tt), snd (k tt)).
Proof. unfold bind, emit. destruct (k tt); reflexivity. Qed.

Lemma bind_ret {A B} (a : A) (k : A -> M B) : bind (ret a) k = k a.
Proof. unfold bind, ret. destruct (k a); reflexivity. Qed.

Lemma bind_lift_Returns {A B} (a : A) (k : A -> M B) :
  bind (lift (Returns a)) k = k a.
Proof. apply bind_ret. Qed.

Lemma bind_lift_Throws {A B} (e : Error) (k : A -> M B) :
  bind (lift (Throws e)) k = ([], Throw e).
Proof. reflexivity. Qed.

Lemma bind_return {B} (k : unit -> M B) : bind return_ k = ([], Return).
Proof. reflexivity. Qed.

Lemma bind_assoc {A B C} (m : M A) (k : A -> M B) (h : B -> M C) :
  bind (bind m k) h = bind m (fun a => bind (k a) h).
Proof.
  destruct m as [t [a| |e]]; simpl; try reflexivity.
  destruct (k a) as [t1 [b| |e1]]; simpl; try reflexivity.
  destruct (h b) as [t2 c]. by rewrite app_assoc.
Qed.

Lemma bind_events {A B} (t : list event) (a : A) (k : A -> M B) :
  bind (t, Normal a) k = ((t ++ fst (k a))%list, snd (k a)).
Proof. simpl. destruct (k a); reflexivity. Qed.

(** ** Credentials *)

(** C3: when either credential is missing from the environment the run
    prints the configuration error on the console, returns without an
    exception, and neither constructs nor calls the API client. *)
Theorem C3_missing_credentials (env : gmap string string) (productId : string) :
  env !! "NAVER_CLIENT_ID" = None \/ env !! "NAVER_CLIENT_SECRET" = None ->
  getProductOptionExample env productId
    = ([ConsoleError [VStr missing_credentials_message]], Fulfilled)
  /\ collaborator_calls (fst (getProductOptionExample env productId)) = 0%nat.
Proof.
  intros H.
  assert (E : getProductOptionExample env productId
              = ([ConsoleError [VStr missing_credentials_message]], Fulfilled)).
  { unfold getProductOptionExample, getProductOptionExample_body, process_env.
    destruct H as [H | H]; rewrite H.
    - reflexivity.
    - destruct (env !! "NAVER_CLIENT_ID") as [s|]; [|reflexivity].
      simpl truthy. destruct (String.eqb s ""); reflexivity. }
  rewrite E. split; reflexivity.
Qed.

(** C10: a credential that is set to the empty string is treated as an
    absent one: the configuration error is printed and no client is
    constructed. *)
Theorem C10_empty_credentials (env : gmap string string) (productId : string) :
  env !! "NAVER_CLIENT_ID" = Some "" \/ env !! "NAVER_CLIENT_SECRET" = Some "" ->
  getProductOptionExample env productId
    = ([ConsoleError [VStr missing_credentials_message]], Fulfilled)
  /\ collaborator_calls (fst (getProductOptionExample env productId)) = 0%nat.
Proof.
  intros H.
  assert (E : getProductOptionExample env productId
              = ([ConsoleError [VStr missing_credentials_message]], Fulfilled)).
  { unfold getProductOptionExample, getProductOptionExample_body, process_env.
    destruct H as [H | H]; rewrite H.
    - reflexivity.
    - destruct (env !! "NAVER_CLIENT_ID") as [s|]; [|reflexivity].
      simpl truthy. destruct (String.eqb s ""); reflexivity. }
  rewrite E. split; reflexivity.
Qed.

(** ** The run past the credentials check *)

Lemma truthy_VStr (s : string) : s <> "" -> truthy (VStr s) = true.
Proof.
  intros H. simpl. destruct (String.eqb_spec s ""); [contradiction | reflexivity].
Qed.

Lemma try_catch_Throw (t : list event) (e : Error) (handler : Error -> M unit) :
  try_catch (t, Throw e) handler
  = ((t ++ fst (handler e))%list, snd (handler e)).
Proof. simpl. destruct (handler e); reflexivity. Qed.

Lemma Get_message (e : Error) :
  is_nullish e = false -> Get e "message" = Returns (message e).
Proof. destruct e; (discriminate || reflexivity). Qed.

(** The [catch] clause prints the message of what it caught, unless that
    is [null] or [undefined]: then the clause throws. *)
Lemma catch_clause_caught (e : Error) :
  is_nullish e = false ->
  catch_clause e = ([ConsoleError [VStr error_prefix; message e]], Normal tt).
Proof.
  intros H. unfold catch_clause. by rewrite (Get_message _ H), bind_lift_Returns.
Qed.

Lemma catch_clause_nullish (e : Error) :
  is_nullish e = true ->
  catch_clause e = ([], Throw (TypeError (cannot_read_properties e "message"))).
Proof. destruct e; (discriminate || reflexivity). Qed.

Lemma body_with_credentials env productId clientId clientSecret :
  credentials env clientId clientSecret ->
  let naverAPI := NaverCommerceAPI (VStr clientId) (VStr clientSecret) in
  getProductOptionExample_body env productId
  = ((prelude clientId clientSecret productId
      ++ fst (try_catch (try_block naverAPI productId) catch_clause))%list,
     snd (try_catch (try_block naverAPI productId) catch_clause)).
Proof.
  intros (Hid & Hid' & Hsec & Hsec') naverAPI.
  unfold getProductOptionExample_body, process_env.
  rewrite Hid, Hsec, (truthy_VStr _ Hid'), (truthy_VStr _ Hsec').
  simpl when_. rewrite bind_ret.
  unfold new_NaverCommerceAPI. rewrite bind_assoc, bind_emit, bind_ret.
  unfold console_log. rewrite bind_emit. reflexivity.
Qed.

Lemma await_Returns naverAPI productId v {B} (k : value -> M B) :
  getChannelProductDetail naverAPI productId = Returns v ->
  bind (await_getChannelProductDetail naverAPI productId) k
  = (CallGetChannelProductDetail productId :: fst (k v), snd (k v)).
Proof.
  intros H. unfold await_getChannelProductDetail.
  rewrite bind_assoc, bind_emit, H, bind_lift_Returns. reflexivity.
Qed.

Lemma await_Throws naverAPI productId e {B} (k : value -> M B) :
  getChannelProductDetail naverAPI productId = Throws e ->
  bind (await_getChannelProductDetail naverAPI productId) k
  = ([CallGetChannelProductDetail productId], Throw e).
Proof.
  intros H. unfold await_getChannelProductDetail.
  rewrite bind_assoc, bind_emit, H, bind_lift_Throws. reflexivity.
Qed.

(** A rejection of the detail fetch is a failure of the [try] block. *)
Lemma try_block_fetch_rejected naverAPI productId e :
  getChannelProductDetail naverAPI (VStr productId) = Throws e ->
  try_block naverAPI productId = ([CallGetChannelProductDetail (VStr productId)], Throw e).
Proof. intros H. unfold try_block. by apply await_Throws. Qed.

(** The product detail has no [optionInfo] when the path to it stops at
    any of its three steps. *)
Lemma read_optionInfo_absent props :
  is_nullish (lookup_prop "originProduct" props) = true
  \/ (exists origin,
        lookup_prop "originProduct" props = VObj origin
        /\ (is_nullish (lookup_prop "detailAttribute" origin) = true
            \/ exists detail,
                 lookup_prop "detailAttribute" origin = VObj detail
                 /\ lookup_prop "optionInfo" detail = VUndefined)) ->
  read_optionInfo (VObj props) = Returns VUndefined.
Proof.
  unfold read_optionInfo, Get_optional. simpl Get. simpl result_bind.
  intros [H | (origin & -> & [H | (detail & H & Hinfo)])].
  - rewrite H. reflexivity.
  - simpl. rewrite H. reflexivity.
  - simpl. rewrite H. simpl. by rewrite Hinfo.
Qed.

(** ** The branches before the report *)

(** C4: when the detail fetch gives [null], or another falsy value, the run
    prints the guidance message and ends there: it reads no property of the
    result, raises nothing and returns normally. *)
Theorem C4_not_found env productId clientId clientSecret (productDetail : value) :
  credentials env clientId clientSecret ->
  getChannelProductDetail (NaverCommerceAPI (VStr clientId) (VStr clientSecret))
    (VStr productId) = Returns productDetail ->
  truthy productDetail = false ->
  getProductOptionExample env productId
  = ((prelude clientId clientSecret productId
      ++ [CallGetChannelProductDetail (VStr productId);
          ConsoleError [VStr not_found_message]])%list,
     Fulfilled).
Proof.
  intros Hc Hfetch Hfalsy.
  unfold getProductOptionExample. rewrite (body_with_credentials _ _ _ _ Hc).
  unfold try_block. rewrite (await_Returns _ _ _ _ Hfetch), Hfalsy.
  reflexivity.
Qed.

(** C5: when the product detail has no [optionInfo] the run prints the one
    notice after the product name and returns: nothing is reported as an
    error, no section is printed and the parser is not called. *)
Theorem C5_no_option_info env productId clientId clientSecret
    (productDetail optionInfo : value) (name : string) :
  credentials env clientId clientSecret ->
  getChannelProductDetail (NaverCommerceAPI (VStr clientId) (VStr clientSecret))
    (VStr productId) = Returns productDetail ->
  truthy productDetail = true ->
  (let? n := Get productDetail "name" in ToString n) = Returns name ->
  read_optionInfo productDetail = Returns optionInfo ->
  truthy optionInfo = false ->
  getProductOptionExample env productId
  = ((prelude clientId clientSecret productId
      ++ [CallGetChannelProductDetail (VStr productId);
          ConsoleLog [VStr (product_name_prefix +:+ name)];
          ConsoleLog [VStr no_options_notice]])%list,
     Fulfilled).
Proof.
  intros Hc Hfetch Htruthy Hname Hread Hfalsy.
  unfold getProductOptionExample. rewrite (body_with_credentials _ _ _ _ Hc).
  unfold try_block. rewrite (await_Returns _ _ _ _ Hfetch), Htruthy.
  simpl when_. rewrite bind_ret.
  unfold log_line.
  destruct (Get productDetail "name") as [n|e] eqn:En; simpl in Hname; [|discriminate].
  simpl result_bind. rewrite Hname. simpl result_bind.
  rewrite bind_assoc, bind_lift_Returns. unfold console_log. rewrite bind_emit.
  rewrite Hread, bind_lift_Returns.
  unfold formatter. rewrite Hfalsy. reflexivity.
Qed.

(** ** Failures *)

(** C8, as the script has it: a failure raised by the detail fetch, or by
    any later step of the [try] statement, that throws anything but [null]
    or [undefined] is caught: the run prints the error prefix with the
    [message] of what was thrown and ends there, and the promise of the
    call is fulfilled, so that nothing propagates out of the script. *)
Theorem C8_failures_are_caught env productId clientId clientSecret :
  credentials env clientId clientSecret ->
  let naverAPI := NaverCommerceAPI (VStr clientId) (VStr clientSecret) in
  (forall e,
     getChannelProductDetail naverAPI (VStr productId) = Throws e ->
     is_nullish e = false ->
     getProductOptionExample env productId
     = ((prelude clientId clientSecret productId
         ++ [CallGetChannelProductDetail (VStr productId);
             ConsoleError [VStr error_prefix; message e]])%list,
        Fulfilled))
  /\ (forall t e,
        try_block naverAPI productId = (t, Throw e) ->
        is_nullish e = false ->
        getProductOptionExample env productId
        = ((prelude clientId clientSecret productId
            ++ t ++ [ConsoleError [VStr error_prefix; message e]])%list,
           Fulfilled)).
Proof.
  intros Hc naverAPI.
  assert (Hcaught : forall t e,
             try_block naverAPI productId = (t, Throw e) ->
             is_nullish e = false ->
             getProductOptionExample env productId
             = ((prelude clientId clientSecret productId
                 ++ t ++ [ConsoleError [VStr error_prefix; message e]])%list,
                Fulfilled)).
  { intros t e Hthrow Hobject.
    unfold getProductOptionExample. rewrite (body_with_credentials _ _ _ _ Hc).
    fold naverAPI.
    rewrite Hthrow, try_catch_Throw, (catch_clause_caught _ Hobject). reflexivity. }
  split; [|exact Hcaught].
  intros e Hfetch Hobject.
  apply (Hcaught [CallGetChannelProductDetail (VStr productId)] e); [|exact Hobject].
  by apply try_block_fetch_rejected.
Qed.

(** A thrown [null] or [undefined] is caught too, but the [catch] clause
    throws on its [message]: nothing is printed and the promise of the call
    is rejected with that second error. *)
Lemma nullish_failure_escapes env productId clientId clientSecret
    (t : list event) (e : Error) :
  credentials env clientId clientSecret ->
  try_block (NaverCommerceAPI (VStr clientId) (VStr clientSecret)) productId
  = (t, Throw e) ->
  is_nullish e = true ->
  getProductOptionExample env productId
  = ((prelude clientId clientSecret productId ++ t)%list,
     Rejected (TypeError (cannot_read_properties e "message"))).
Proof.
  intros Hc Hthrow Hnull.
  unfold getProductOptionExample. rewrite (body_with_credentials _ _ _ _ Hc).
  rewrite Hthrow, try_catch_Throw, (catch_clause_nullish _ Hnull).
  cbn [fst snd]. by rewrite app_nil_r.
Qed.

(** ** The report writes to the console only *)

Lemma fst_bind {A B} (m : M A) (k : A -> M B) :
  fst (bind m k)
  = (fst m ++ match snd m with Normal a => fst (k a) | _ => [] end)%list.
Proof.
  destruct m as [t [a| |e]]; simpl; rewrite ?app_nil_r; try reflexivity.
  destruct (k a); reflexivity.
Qed.

Lemma snd_bind {A B} (m : M A) (k : A -> M B) :
  snd (bind m k)
  = match snd m with Normal a => snd (k a) | Return => Return | Throw e => Throw e end.
Proof.
  destruct m as [t [a| |e]]; simpl; try reflexivity.
  destruct (k a); reflexivity.
Qed.

Lemma plain_bind {A B} (m : M A) (k : A -> M B) :
  plain m -> (forall a, plain (k a)) -> plain (bind m k).
Proof.
  intros [Hm Hr] Hk. split.
  - rewrite fst_bind. apply Forall_app. split; [exact Hm|].
    destruct (snd m); [apply Hk | constructor | constructor].
  - rewrite snd_bind. destruct (snd m); [apply Hk | contradiction | discriminate].
Qed.

Lemma plain_lift {A} (r : result A) : plain (lift r).
Proof. destruct r; split; simpl; (constructor || discriminate). Qed.

Lemma plain_ret {A} (a : A) : plain (ret a).
Proof. split; simpl; (constructor || discriminate). Qed.

Lemma plain_console_log args : plain (console_log args).
Proof. split; simpl; [repeat constructor | discriminate]. Qed.

Lemma plain_log_line line : plain (log_line line).
Proof.
  unfold log_line. apply plain_bind; [apply plain_lift|].
  intros. apply plain_console_log.
Qed.

Lemma plain_when c (body : M unit) : plain body -> plain (when_ c body).
Proof. intros H. destruct c; [exact H | apply plain_ret]. Qed.

Lemma plain_call (body : M unit) :
  Forall (fun ev => is_console ev = true) (fst body) -> plain (call body).
Proof.
  destruct body as [t [[]| |e]]; intros H; split; simpl; (exact H || discriminate).
Qed.

Lemma plain_forEach arr (callback : value -> M unit) :
  (forall x, plain (callback x)) -> plain (forEach arr callback).
Proof.
  intros H. destruct arr; try apply plain_lift.
  simpl. induction elems as [|x rest IH]; [apply plain_ret|].
  apply plain_bind; [apply plain_call, H | intros _; exact IH].
Qed.

Ltac plain_step :=
  first
    [ apply plain_lift | apply plain_ret | apply plain_console_log
    | apply plain_log_line
    | apply plain_when
    | apply plain_forEach; intros ?
    | apply plain_bind; [|intros ?] ].

Lemma plain_option_sections optionInfo : plain (option_sections optionInfo).
Proof.
  unfold option_sections, simple_section, combination_section,
    custom_section, standard_section.
  repeat plain_step.
Qed.

(** An absent [optionInfo] ends the function at the notice. *)
Lemma formatter_absent optionInfo :
  truthy optionInfo = false ->
  formatter optionInfo = ([ConsoleLog [VStr no_options_notice]], Return).
Proof. intros H. unfold formatter. rewrite H. reflexivity. Qed.

Lemma formatter_present optionInfo :
  truthy optionInfo = true ->
  formatter optionInfo
  = (ConsoleLog [VStr raw_data_header]
       :: ConsoleLog [JSON_stringify optionInfo]
       :: ConsoleLog [VStr breakdown_header]
       :: fst (option_sections optionInfo),
     snd (option_sections optionInfo)).
Proof.
  intros H. unfold formatter. rewrite H. simpl when_. rewrite bind_ret.
  unfold console_log. rewrite !bind_emit. reflexivity.
Qed.

Lemma parse_calls_app (t1 t2 : list event) :
  parse_calls (t1 ++ t2) = (parse_calls t1 ++ parse_calls t2)%list.
Proof.
  induction t1 as [|[] t1 IH]; simpl; rewrite ?IH; reflexivity.
Qed.

Lemma parse_calls_console (t : list event) :
  Forall (fun ev => is_console ev = true) t -> parse_calls t = [].
Proof.
  induction 1 as [|ev t Hev _ IH]; [reflexivity|].
  destruct ev; simpl in *; (exact IH || discriminate).
Qed.

Lemma delegated_parser_calls naverAPI optionInfo productId :
  parse_calls (fst (delegated_parser naverAPI optionInfo productId)) = [optionInfo].
Proof.
  unfold delegated_parser, call_parseOptionInfo, console_log.
  rewrite bind_emit, bind_assoc, bind_emit. simpl.
  destruct (parseOptionInfo naverAPI optionInfo (VStr productId)); reflexivity.
Qed.

Lemma report_parse_calls naverAPI optionInfo productId :
  at_most_one_present
    (parse_calls (fst (formatter optionInfo ;;
                       delegated_parser naverAPI optionInfo productId))).
Proof.
  destruct (truthy optionInfo) eqn:Ht.
  - rewrite fst_bind, parse_calls_app, (formatter_present _ Ht).
    destruct (plain_option_sections optionInfo) as [Hc _].
    cbn [fst snd parse_calls]. rewrite (parse_calls_console _ Hc).
    destruct (snd (option_sections optionInfo)).
    + rewrite delegated_parser_calls. split; [simpl; lia | by repeat constructor].
    + split; [simpl; lia | constructor].
    + split; [simpl; lia | constructor].
  - rewrite (formatter_absent _ Ht). split; [simpl; lia | constructor].
Qed.

Lemma try_block_parse_calls naverAPI productId :
  at_most_one_present (parse_calls (fst (try_block naverAPI productId))).
Proof.
  assert (Hnil : at_most_one_present []) by (split; [simpl; lia | constructor]).
  unfold try_block.
  destruct (getChannelProductDetail naverAPI (VStr productId)) as [pd|e] eqn:Hf.
  2: { rewrite (await_Throws _ _ _ _ Hf). exact Hnil. }
  rewrite (await_Returns _ _ _ _ Hf). cbn [fst parse_calls].
  destruct (truthy pd); [|exact Hnil].
  simpl when_. rewrite bind_ret, fst_bind, parse_calls_app.
  destruct (plain_log_line
              (let? name := Get pd "name" in
               let? s := ToString name in Returns (product_name_prefix +:+ s)))
    as [Hc _].
  rewrite (parse_calls_console _ Hc). simpl app.
  destruct (snd (log_line _)); [|exact Hnil..].
  destruct (read_optionInfo pd) as [optionInfo|e]; [|exact Hnil].
  rewrite bind_lift_Returns. apply report_parse_calls.
Qed.

Lemma fst_try_catch (body : M unit) :
  fst (try_catch body catch_clause)
  = (fst body
     ++ match snd body with
        | Throw e =>
            if is_nullish e then []
            else [ConsoleError [VStr error_prefix; message e]]
        | _ => []
        end)%list.
Proof.
  destruct body as [t [[]| |e]]; cbn [fst snd]; rewrite ?app_nil_r; try reflexivity.
  rewrite try_catch_Throw. destruct (is_nullish e) eqn:He.
  - by rewrite (catch_clause_nullish _ He).
  - by rewrite (catch_clause_caught _ He).
Qed.

(** Either credential is unset or empty, or both are set. *)
Lemma credentials_cases env :
  (negb (truthy (process_env env "NAVER_CLIENT_ID"))
   || negb (truthy (process_env env "NAVER_CLIENT_SECRET")) = true)
  \/ exists clientId clientSecret, credentials env clientId clientSecret.
Proof.
  unfold process_env, credentials.
  destruct (env !! "NAVER_CLIENT_ID") as [i|]; [|left; reflexivity].
  destruct (env !! "NAVER_CLIENT_SECRET") as [c|];
    [|left; apply orb_true_r].
  simpl. destruct (String.eqb_spec i ""); [left; reflexivity|].
  destruct (String.eqb_spec c ""); [left; reflexivity|].
  right. exists i, c. auto.
Qed.

Lemma body_without_credentials env productId :
  negb (truthy (process_env env "NAVER_CLIENT_ID"))
  || negb (truthy (process_env env "NAVER_CLIENT_SECRET")) = true ->
  getProductOptionExample_body env productId
  = ([ConsoleError [VStr missing_credentials_message]], Return).
Proof.
  intros H. unfold getProductOptionExample_body. rewrite H. reflexivity.
Qed.

(** ** The delegated parser *)

(** C9: in every run [parseOptionInfo] is called at most once, and each
    call it receives is with a present (truthy) [optionInfo]: the guards on
    the credentials, on the product detail and on [optionInfo] return
    before the call. *)
Theorem C9_parser_called_at_most_once env productId :
  (length (parse_calls (fst (getProductOptionExample env productId))) <= 1)%nat
  /\ Forall (fun optionInfo => truthy optionInfo = true)
       (parse_calls (fst (getProductOptionExample env productId))).
Proof.
  change (at_most_one_present
            (parse_calls (fst (getProductOptionExample env productId)))).
  unfold getProductOptionExample.
  destruct (credentials_cases env) as [H | (i & c & H)].
  - rewrite (body_without_credentials _ _ H).
    split; [simpl; lia | constructor].
  - rewrite (body_with_credentials _ _ _ _ H).
    set (naverAPI := NaverCommerceAPI (VStr i) (VStr c)).
    assert (E : parse_calls
                  (prelude i c productId
                   ++ fst (try_catch (try_block naverAPI productId) catch_clause))
                = parse_calls (fst (try_block naverAPI productId))).
    { rewrite parse_calls_app, fst_try_catch, parse_calls_app. simpl.
      destruct (snd (try_block naverAPI productId)) as [[]| |e];
        [| |destruct (is_nullish e)]; simpl; by rewrite app_nil_r. }
    destruct (snd (try_catch (try_block naverAPI productId) catch_clause));
      cbn [fst]; rewrite E; apply try_block_parse_calls.
Qed.

(** ** The sections of the report *)

Lemma present_and_non_empty_entries (c : value) (entries : list value) :
  entries_of c entries ->
  present_and_non_empty c
  = Returns (match entries with [] => false | _ => true end).
Proof.
  intros [| |elems]; try reflexivity.
  destruct elems; reflexivity.
Qed.

Lemma forEach_lines (line_of : value -> result string) entries lines :
  Forall2 (fun e l => line_of e = Returns l) entries lines ->
  forEach (VArr entries) (fun e => log_line (line_of e))
  = (logged lines, Normal tt).
Proof.
  induction 1 as [|e l entries lines He _ IH]; [reflexivity|].
  simpl in *. unfold log_line at 1. rewrite He, bind_lift_Returns.
  unfold console_log, emit. simpl call. rewrite bind_events, IH. reflexivity.
Qed.

Lemma entries_of_cons (c x : value) (rest : list value) :
  entries_of c (x :: rest) -> c = VArr (x :: rest).
Proof. inversion 1; reflexivity. Qed.

Lemma or_else_entries (c : value) (entries : list value) :
  entries_of c entries -> or_else c (VArr []) = VArr entries.
Proof. intros []; reflexivity. Qed.

Lemma when_true (body : M unit) : when_ true body = body.
Proof. reflexivity. Qed.

Ltac section_spec H Hlines :=
  simpl Get; rewrite bind_lift_Returns;
  rewrite (present_and_non_empty_entries _ _ H), bind_lift_Returns;
  destruct Hlines as [|e l entries lines He Hrest]; [reflexivity|];
  rewrite (entries_of_cons _ _ _ H) in *;
  cbv beta iota; rewrite when_true; unfold console_log; rewrite bind_emit.

Lemma simple_section_spec props entries lines :
  entries_of (lookup_prop "optionSimple" props) entries ->
  Forall2 (fun e l => simple_line e = Returns l) entries lines ->
  simple_section (VObj props) = (logged (spec_section simple_header lines), Normal tt).
Proof.
  intros H Hlines. unfold simple_section. section_spec H Hlines.
  rewrite (forEach_lines simple_line (e :: entries) (l :: lines));
    [reflexivity | by constructor].
Qed.

Lemma custom_section_spec props entries lines :
  entries_of (lookup_prop "optionCustom" props) entries ->
  Forall2 (fun e l => custom_line e = Returns l) entries lines ->
  custom_section (VObj props) = (logged (spec_section custom_header lines), Normal tt).
Proof.
  intros H Hlines. unfold custom_section. section_spec H Hlines.
  rewrite (forEach_lines custom_line (e :: entries) (l :: lines));
    [reflexivity | by constructor].
Qed.

Lemma standard_section_spec props entries lines :
  entries_of (lookup_prop "optionStandards" props) entries ->
  Forall2 (fun e l => standard_line e = Returns l) entries lines ->
  standard_section (VObj props)
  = (logged (spec_section standard_header lines), Normal tt).
Proof.
  intros H Hlines. unfold standard_section. section_spec H Hlines.
  rewrite (forEach_lines standard_line (e :: entries) (l :: lines));
    [reflexivity | by constructor].
Qed.

Lemma combination_section_spec props entries names joined lines :
  entries_of (lookup_prop "optionCombinations" props) entries ->
  entries = []
  \/ (entries_of (lookup_prop "optionCombinationGroupNames" props) names
      /\ call_join (VArr names) ", " = Returns joined) ->
  Forall2 (fun e l => combination_line e = Returns l) entries lines ->
  combination_section (VObj props)
  = (logged (spec_combination_section joined lines), Normal tt).
Proof.
  intros H Hgroup Hlines. unfold combination_section. section_spec H Hlines.
  destruct Hgroup as [Hnil | [Hnames Hjoin]]; [discriminate Hnil|].
  rewrite bind_lift_Returns, (or_else_entries _ _ Hnames), Hjoin.
  unfold log_line at 1. simpl result_bind. rewrite bind_assoc, bind_lift_Returns.
  unfold console_log. rewrite bind_emit.
  rewrite (forEach_lines combination_line (e :: entries) (l :: lines));
    [reflexivity | by constructor].
Qed.

Lemma logged_app (l1 l2 : list string) :
  logged (l1 ++ l2) = (logged l1 ++ logged l2)%list.
Proof. apply map_app. Qed.

Lemma option_sections_spec props
    (simple combinations names custom standards : list value)
    (simple_lines combination_lines custom_lines standard_lines : list string)
    (joined : string) :
  entries_of (lookup_prop "optionSimple" props) simple ->
  entries_of (lookup_prop "optionCombinations" props) combinations ->
  entries_of (lookup_prop "optionCustom" props) custom ->
  entries_of (lookup_prop "optionStandards" props) standards ->
  Forall2 (fun e l => simple_line e = Returns l) simple simple_lines ->
  combinations = []
  \/ (entries_of (lookup_prop "optionCombinationGroupNames" props) names
      /\ call_join (VArr names) ", " = Returns joined) ->
  Forall2 (fun e l => combination_line e = Returns l) combinations combination_lines ->
  Forall2 (fun e l => custom_line e = Returns l) custom custom_lines ->
  Forall2 (fun e l => standard_line e = Returns l) standards standard_lines ->
  option_sections (VObj props)
  = (logged (spec_report simple_lines joined combination_lines
               custom_lines standard_lines),
     Normal tt).
Proof.
  intros H1 H2 H3 H4 L1 Hg L2 L3 L4.
  unfold option_sections, spec_report.
  rewrite (simple_section_spec _ _ _ H1 L1), bind_events.
  rewrite (combination_section_spec _ _ _ _ _ H2 Hg L2), bind_events.
  rewrite (custom_section_spec _ _ _ H3 L3), bind_events.
  rewrite (standard_section_spec _ _ _ H4 L4).
  cbn [fst snd]. by rewrite !logged_app.
Qed.

(** The script prints for an entry the line that the specification words. *)

Lemma simple_line_spec (e : value) (line : string) :
  spec_simple_line e line -> simple_line e = Returns line.
Proof.
  intros (g & n & i & (v1 & G1 & T1) & (v2 & G2 & T2) & (v3 & G3 & T3) & ->).
  unfold simple_line. rewrite G1. simpl. rewrite T1. simpl.
  rewrite G2. simpl. rewrite T2. simpl. rewrite G3. simpl. rewrite T3. reflexivity.
Qed.

Lemma combination_line_spec (e : value) (line : string) :
  spec_combination_line e line -> combination_line e = Returns line.
Proof.
  intros (o & i & q & (v1 & G1 & T1) & (v2 & G2 & T2) & (v3 & G3 & T3) & ->).
  unfold combination_line. rewrite G1. simpl. rewrite T1. simpl.
  rewrite G2. simpl. rewrite T2. simpl. rewrite G3. simpl. rewrite T3. reflexivity.
Qed.

Lemma custom_line_spec (e : value) (line : string) :
  spec_custom_line e line -> custom_line e = Returns line.
Proof.
  intros (g & l & (v1 & G1 & T1) & (v2 & G2 & T2) & ->).
  unfold custom_line. rewrite G1. simpl. rewrite T1. simpl.
  rewrite G2. simpl. rewrite T2. reflexivity.
Qed.

Lemma standard_line_spec (e : value) (line : string) :
  spec_standard_line e line -> standard_line e = Returns line.
Proof.
  intros (o & sn & n & i & G1 & G2 & T1 & (v3 & G3 & T3) & ->).
  unfold standard_line, standard_name. rewrite G1. simpl.
  unfold or_else in T1. destruct (truthy o).
  - simpl. rewrite T1. simpl. rewrite G3. simpl. rewrite T3. reflexivity.
  - rewrite G2. simpl. rewrite T1. simpl. rewrite G3. simpl. rewrite T3. reflexivity.
Qed.

(** Conversely every line the script prints is a line of the
    specification. *)

Lemma simple_line_complete (e : value) (line : string) :
  simple_line e = Returns line -> spec_simple_line e line.
Proof.
  unfold simple_line.
  destruct (Get e "groupName") as [v1|] eqn:G1; [|discriminate]. simpl.
  destruct (ToString v1) as [s1|] eqn:T1; [|discriminate]. simpl.
  destruct (Get e "name") as [v2|] eqn:G2; [|discriminate]. simpl.
  destruct (ToString v2) as [s2|] eqn:T2; [|discriminate]. simpl.
  destruct (Get e "id") as [v3|] eqn:G3; [|discriminate]. simpl.
  destruct (ToString v3) as [s3|] eqn:T3; [|discriminate]. simpl.
  intros [= <-]. exists s1, s2, s3. unfold shows. eauto 10.
Qed.

Lemma combination_line_complete (e : value) (line : string) :
  combination_line e = Returns line -> spec_combination_line e line.
Proof.
  unfold combination_line.
  destruct (Get e "optionName") as [v1|] eqn:G1; [|discriminate]. simpl.
  destruct (ToString v1) as [s1|] eqn:T1; [|discriminate]. simpl.
  destruct (Get e "id") as [v2|] eqn:G2; [|discriminate]. simpl.
  destruct (ToString v2) as [s2|] eqn:T2; [|discriminate]. simpl.
  destruct (Get e "stockQuantity") as [v3|] eqn:G3; [|discriminate]. simpl.
  destruct (ToString v3) as [s3|] eqn:T3; [|discriminate]. simpl.
  intros [= <-]. exists s1, s2, s3. unfold shows. eauto 10.
Qed.

Lemma custom_line_complete (e : value) (line : string) :
  custom_line e = Returns line -> spec_custom_line e line.
Proof.
  unfold custom_line.
  destruct (Get e "groupName") as [v1|] eqn:G1; [|discriminate]. simpl.
  destruct (ToString v1) as [s1|] eqn:T1; [|discriminate]. simpl.
  destruct (Get e "inputLimit") as [v2|] eqn:G2; [|discriminate]. simpl.
  destruct (ToString v2) as [s2|] eqn:T2; [|discriminate]. simpl.
  intros [= <-]. exists s1, s2. unfold shows. eauto 10.
Qed.

Lemma Get_defined (e : value) (p q : string) (v : value) :
  Get e p = Returns v -> exists v', Get e q = Returns v'.
Proof. destruct e; simpl; (discriminate || (intros _; eexists; reflexivity)). Qed.

Lemma standard_line_complete (e : value) (line : string) :
  standard_line e = Returns line -> spec_standard_line e line.
Proof.
  unfold standard_line, standard_name.
  destruct (Get e "optionName") as [o|] eqn:G1; [|discriminate].
  destruct (Get_defined e "optionName" "standardOptionName" o G1) as [sn G2].
  rewrite G2. simpl.
  intros H. exists o, sn. unfold or_else.
  destruct (truthy o); simpl in H.
  - destruct (ToString o) as [s1|] eqn:T1; [|discriminate]. simpl in H.
    destruct (Get e "id") as [v3|] eqn:G3; [|discriminate]. simpl in H.
    destruct (ToString v3) as [s3|] eqn:T3; [|discriminate]. simpl in H.
    injection H as <-. exists s1, s3. unfold shows. eauto 10.
  - destruct (ToString sn) as [s1|] eqn:T1; [|discriminate]. simpl in H.
    destruct (Get e "id") as [v3|] eqn:G3; [|discriminate]. simpl in H.
    destruct (ToString v3) as [s3|] eqn:T3; [|discriminate]. simpl in H.
    injection H as <-. exists s1, s3. unfold shows. eauto 10.
Qed.

Lemma lines_of_spec (spec : value -> string -> Prop)
    (line_of : value -> result string) (entries : list value) (lines : list string) :
  (forall e l, spec e l -> line_of e = Returns l) ->
  Forall2 spec entries lines ->
  Forall2 (fun e l => line_of e = Returns l) entries lines.
Proof.
  intros H. induction 1; constructor; auto.
Qed.

(** C6: the report has a section for each of the four variants that has
    entries, with its header and a line for every entry that lists the key
    fields of the entry (group name, name and identifier of a simple
    option; option name, identifier and stock of a combination; group
    name and limit of a custom option; display name and identifier of a
    standard option), in the order simple, combinations, custom,
    standards; a variant that is absent or empty prints nothing. *)
Theorem C6_sections_in_order props
    (simple combinations names custom standards : list value)
    (simple_lines combination_lines custom_lines standard_lines : list string)
    (joined : string) :
  entries_of (lookup_prop "optionSimple" props) simple ->
  entries_of (lookup_prop "optionCombinations" props) combinations ->
  entries_of (lookup_prop "optionCustom" props) custom ->
  entries_of (lookup_prop "optionStandards" props) standards ->
  Forall2 spec_simple_line simple simple_lines ->
  combinations = []
  \/ (entries_of (lookup_prop "optionCombinationGroupNames" props) names
      /\ call_join (VArr names) ", " = Returns joined) ->
  Forall2 spec_combination_line combinations combination_lines ->
  Forall2 spec_custom_line custom custom_lines ->
  Forall2 spec_standard_line standards standard_lines ->
  option_sections (VObj props)
  = (logged (spec_report simple_lines joined combination_lines
               custom_lines standard_lines),
     Normal tt).
Proof.
  intros H1 H2 H3 H4 L1 Hg L2 L3 L4.
  apply (option_sections_spec props simple combinations names custom standards);
    try assumption.
  - exact (lines_of_spec _ _ _ _ simple_line_spec L1).
  - exact (lines_of_spec _ _ _ _ combination_line_spec L2).
  - exact (lines_of_spec _ _ _ _ custom_line_spec L3).
  - exact (lines_of_spec _ _ _ _ standard_line_spec L4).
Qed.

Lemma combination_line_shape (combo : value) (line : string) :
  combination_line combo = Returns line ->
  String.prefix group_names_prefix line = false.
Proof.
  unfold combination_line.
  destruct (Get combo "optionName") as [v1|]; [|discriminate]. simpl.
  destruct (ToString v1) as [s1|]; [|discriminate]. simpl.
  destruct (Get combo "id") as [v2|]; [|discriminate]. simpl.
  destruct (ToString v2) as [s2|]; [|discriminate]. simpl.
  destruct (Get combo "stockQuantity") as [v3|]; [|discriminate]. simpl.
  destruct (ToString v3) as [s3|]; [|discriminate]. simpl.
  intros [= <-]. reflexivity.
Qed.

Lemma combination_lines_shape entries lines :
  Forall2 (fun e l => combination_line e = Returns l) entries lines ->
  List.filter is_group_names_line (logged lines) = [].
Proof.
  induction 1 as [|e l entries lines He _ IH]; [reflexivity|].
  simpl. by rewrite (combination_line_shape _ _ He).
Qed.

Lemma header_not_group_names :
  is_group_names_line (ConsoleLog [VStr combination_header]) = false.
Proof. reflexivity. Qed.

Lemma group_names_line_is (joined : string) :
  is_group_names_line (ConsoleLog [VStr (group_names_prefix +:+ joined)]) = true.
Proof. destruct joined; reflexivity. Qed.

(** C7: the section of the combinations prints the group names, joined
    with a comma and a space, on one line after the header and before the
    entries, once whatever the number of entries; the names default to the
    empty sequence when [optionCombinationGroupNames] is absent. *)
Theorem C7_group_names_once props (combinations names : list value)
    (joined : string) (lines : list string) :
  lookup_prop "optionCombinations" props = VArr combinations ->
  combinations <> [] ->
  entries_of (lookup_prop "optionCombinationGroupNames" props) names ->
  call_join (VArr names) ", " = Returns joined ->
  Forall2 (fun e l => combination_line e = Returns l) combinations lines ->
  combination_section (VObj props)
  = (logged (combination_header :: (group_names_prefix +:+ joined) :: lines),
     Normal tt)
  /\ length (List.filter is_group_names_line (fst (combination_section (VObj props))))
     = 1%nat.
Proof.
  intros Hc Hne Hnames Hjoin Hlines.
  assert (E : combination_section (VObj props)
              = (logged (combination_header :: (group_names_prefix +:+ joined) :: lines),
                 Normal tt)).
  { rewrite (combination_section_spec props combinations names joined lines);
      [ | rewrite Hc; constructor | right; by split | assumption].
    destruct Hlines; [contradiction | reflexivity]. }
  split; [exact E|]. rewrite E.
  cbn [fst logged map List.filter].
  change (map (fun s => ConsoleLog [VStr s]) lines) with (logged lines).
  rewrite (combination_lines_shape _ _ Hlines).
  rewrite header_not_group_names, group_names_line_is. reflexivity.
Qed.

(** ** Every entry of the expected shape has its line *)

Lemma ToString_primitive (v : value) :
  is_primitive v = true -> exists s, ToString v = Returns s.
Proof. destruct v; (discriminate || (intros _; eexists; reflexivity)). Qed.

Lemma is_primitive_or_else (a b : value) :
  is_primitive a = true -> is_primitive b = true ->
  is_primitive (or_else a b) = true.
Proof. intros Ha Hb. unfold or_else. by destruct (truthy a). Qed.

Lemma simple_line_plain (e : value) :
  plain_entry e -> exists l, simple_line e = Returns l.
Proof.
  intros (props & -> & Hp). unfold simple_line. simpl Get. simpl result_bind.
  destruct (ToString_primitive _ (Hp "groupName")) as [s1 ->].
  destruct (ToString_primitive _ (Hp "name")) as [s2 ->].
  destruct (ToString_primitive _ (Hp "id")) as [s3 ->].
  eexists; reflexivity.
Qed.

Lemma combination_line_plain (e : value) :
  plain_entry e -> exists l, combination_line e = Returns l.
Proof.
  intros (props & -> & Hp). unfold combination_line. simpl Get. simpl result_bind.
  destruct (ToString_primitive _ (Hp "optionName")) as [s1 ->].
  destruct (ToString_primitive _ (Hp "id")) as [s2 ->].
  destruct (ToString_primitive _ (Hp "stockQuantity")) as [s3 ->].
  eexists; reflexivity.
Qed.

Lemma custom_line_plain (e : value) :
  plain_entry e -> exists l, custom_line e = Returns l.
Proof.
  intros (props & -> & Hp). unfold custom_line. simpl Get. simpl result_bind.
  destruct (ToString_primitive _ (Hp "groupName")) as [s1 ->].
  destruct (ToString_primitive _ (Hp "inputLimit")) as [s2 ->].
  eexists; reflexivity.
Qed.

Lemma standard_name_object props :
  standard_name (VObj props)
  = Returns (or_else (lookup_prop "optionName" props)
               (lookup_prop "standardOptionName" props)).
Proof.
  unfold standard_name, or_else. simpl.
  destruct (truthy (lookup_prop "optionName" props)); reflexivity.
Qed.

Lemma standard_line_plain (e : value) :
  plain_entry e -> exists l, standard_line e = Returns l.
Proof.
  intros (props & -> & Hp). unfold standard_line.
  rewrite standard_name_object. simpl Get. simpl result_bind.
  destruct (ToString_primitive _
              (is_primitive_or_else _ _ (Hp "optionName") (Hp "standardOptionName")))
    as [s1 ->].
  destruct (ToString_primitive _ (Hp "id")) as [s2 ->].
  eexists; reflexivity.
Qed.

Lemma lines_exist (line_of : value -> result string) (entries : list value) :
  (forall e, plain_entry e -> exists l, line_of e = Returns l) ->
  Forall plain_entry entries ->
  exists lines, Forall2 (fun e l => line_of e = Returns l) entries lines.
Proof.
  intros Hline. induction 1 as [|e entries He _ [lines IH]].
  - exists []. constructor.
  - destruct (Hline e He) as [l Hl]. exists (l :: lines). by constructor.
Qed.

Lemma call_join_primitives (names : list value) (sep : string) :
  Forall (fun v => is_primitive v = true) names ->
  exists joined, call_join (VArr names) sep = Returns joined.
Proof.
  intros H. unfold call_join.
  assert (E : exists ss, join_with ToString sep names = Returns ss).
  { induction H as [|v names Hv _ [ss IH]]; [by exists []|].
    simpl. destruct (ToString_primitive v Hv) as [s Hs].
    destruct (is_nullish v); rewrite ?Hs; simpl; rewrite IH; eexists; reflexivity. }
  destruct E as [ss ->]. eexists; reflexivity.
Qed.

(** Every [OptionInfo] object of the expected shape gets the report of the
    specification, with a line for each of its entries. *)
Lemma option_sections_of_shape props (simple combinations names custom standards : list value) :
  collection props "optionSimple" simple ->
  collection props "optionCombinations" combinations ->
  entries_of (lookup_prop "optionCombinationGroupNames" props) names ->
  Forall (fun v => is_primitive v = true) names ->
  collection props "optionCustom" custom ->
  collection props "optionStandards" standards ->
  exists simple_lines joined combination_lines custom_lines standard_lines,
    Forall2 (fun e l => simple_line e = Returns l) simple simple_lines
    /\ call_join (VArr names) ", " = Returns joined
    /\ Forall2 (fun e l => combination_line e = Returns l) combinations combination_lines
    /\ Forall2 (fun e l => custom_line e = Returns l) custom custom_lines
    /\ Forall2 (fun e l => standard_line e = Returns l) standards standard_lines
    /\ option_sections (VObj props)
       = (logged (spec_report simple_lines joined combination_lines
                    custom_lines standard_lines),
          Normal tt).
Proof.
  intros [H1 P1] [H2 P2] Hn Pn [H3 P3] [H4 P4].
  destruct (lines_exist simple_line _ simple_line_plain P1) as [l1 L1].
  destruct (lines_exist combination_line _ combination_line_plain P2) as [l2 L2].
  destruct (lines_exist custom_line _ custom_line_plain P3) as [l3 L3].
  destruct (lines_exist standard_line _ standard_line_plain P4) as [l4 L4].
  destruct (call_join_primitives names ", " Pn) as [joined Hj].
  exists l1, joined, l2, l3, l4. repeat (split; [assumption|]).
  unfold option_sections, spec_report.
  rewrite (simple_section_spec _ _ _ H1 L1), bind_events.
  rewrite (combination_section_spec _ _ names joined _ H2 (or_intror (conj Hn Hj)) L2),
    bind_events.
  rewrite (custom_section_spec _ _ _ H3 L3), bind_events.
  rewrite (standard_section_spec _ _ _ H4 L4).
  cbn [fst snd]. by rewrite !logged_app.
Qed.

(** ** The display name of a standard option *)

Lemma or_else_first_non_null (a b : value) :
  is_nullish a = true \/ truthy a = true -> or_else a b = first_non_null a b.
Proof.
  unfold or_else, first_non_null.
  intros [H | H]; [destruct a; (discriminate || reflexivity)|].
  rewrite H. destruct a; (discriminate || reflexivity).
Qed.

(** C2, as the script has it: the name shown for a standard option is
    [optionName] when that is truthy and [standardOptionName] otherwise,
    the first truthy one; an entry with [standardOptionName] Blue and no
    [optionName] shows Blue. *)
Theorem C2_standard_name_first_truthy props :
  standard_name (VObj props)
  = Returns (or_else (lookup_prop "optionName" props)
               (lookup_prop "standardOptionName" props))
  /\ standard_line (VObj props)
     = (let? name := ToString (or_else (lookup_prop "optionName" props)
                                 (lookup_prop "standardOptionName" props)) in
        let? id := ToString (lookup_prop "id" props) in
        Returns ("  - " +:+ name +:+ " (ID: " +:+ id +:+ ")"))
  /\ standard_line (VObj [("standardOptionName", VStr "Blue"); ("id", VStr "s1")])
     = Returns "  - Blue (ID: s1)".
Proof.
  assert (E : standard_name (VObj props)
              = Returns (or_else (lookup_prop "optionName" props)
                           (lookup_prop "standardOptionName" props))).
  { apply standard_name_object. }
  split; [exact E|]. split; [|reflexivity].
  unfold standard_line. rewrite E. reflexivity.
Qed.

(** ** An [OptionInfo] without entries *)

Lemma JSON_stringify_object props :
  exists s, JSON_stringify (VObj props) = VStr (String "{" s).
Proof.
  unfold JSON_stringify. simpl.
  match goal with
  | |- context [match ?l with [] => _ | _ :: _ => _ end] => destruct l
  end; eexists; reflexivity.
Qed.

Lemma absent_or_empty_entries (c : value) :
  absent_or_empty c -> entries_of c [].
Proof. intros []; constructor. Qed.

Lemma option_sections_no_entries props :
  no_entries props -> option_sections (VObj props) = ([], Normal tt).
Proof.
  intros (H1 & H2 & H3 & H4). unfold option_sections.
  rewrite (simple_section_spec props [] []), bind_events;
    [|by apply absent_or_empty_entries | constructor].
  rewrite (combination_section_spec props [] [] "" []), bind_events;
    [|by apply absent_or_empty_entries | by left | constructor].
  rewrite (custom_section_spec props [] []), bind_events;
    [|by apply absent_or_empty_entries | constructor].
  rewrite (standard_section_spec props [] []);
    [|by apply absent_or_empty_entries | constructor].
  reflexivity.
Qed.

(** C1, as the script has it: for an [OptionInfo] object whose four
    collections are all absent or empty the formatter prints no section
    header and no entry line, and it does not print the notice either,
    which is for an absent [optionInfo]: its output is the header of the
    raw data, the JSON text of the object and the header of the
    breakdown. *)
Theorem C1_no_entries_no_sections props :
  no_entries props ->
  formatter (VObj props)
  = ([ConsoleLog [VStr raw_data_header];
      ConsoleLog [JSON_stringify (VObj props)];
      ConsoleLog [VStr breakdown_header]],
     Normal tt)
  /\ Forall (fun ev => is_section_header ev = false) (fst (formatter (VObj props)))
  /\ ~ In (ConsoleLog [VStr no_options_notice]) (fst (formatter (VObj props))).
Proof.
  intros H.
  assert (E : formatter (VObj props)
              = ([ConsoleLog [VStr raw_data_header];
                  ConsoleLog [JSON_stringify (VObj props)];
                  ConsoleLog [VStr breakdown_header]],
                 Normal tt)).
  { rewrite formatter_present by reflexivity.
    by rewrite (option_sections_no_entries _ H). }
  split; [exact E|]. rewrite E. cbn [fst].
  destruct (JSON_stringify_object props) as [s ->].
  split.
  - repeat constructor.
  - intros [H1 | [H1 | [H1 | []]]]; discriminate H1.
Qed.

(** ** Which events a statement gives rise to *)

Lemma emits_bind (P : event -> bool) {A B} (m : M A) (k : A -> M B) :
  emits P m -> (forall a, emits P (k a)) -> emits P (bind m k).
Proof.
  intros Hm Hk. unfold emits. rewrite fst_bind. apply Forall_app.
  split; [exact Hm|]. destruct (snd m); [apply Hk | constructor | constructor].
Qed.

Lemma emits_lift (P : event -> bool) {A} (r : result A) : emits P (lift r).
Proof. destruct r; constructor. Qed.

Lemma emits_ret (P : event -> bool) {A} (a : A) : emits P (ret a).
Proof. constructor. Qed.

Lemma emits_return (P : event -> bool) : emits P return_.
Proof. constructor. Qed.

Lemma emits_emit (P : event -> bool) (ev : event) : P ev = true -> emits P (emit ev).
Proof. intros H. by repeat constructor. Qed.

Lemma emits_when (P : event -> bool) c (body : M unit) :
  emits P body -> emits P (when_ c body).
Proof. intros H. destruct c; [exact H | constructor]. Qed.

Lemma emits_call (P : event -> bool) (body : M unit) :
  emits P body -> emits P (call body).
Proof. destruct body as [t [[]| |e]]; intros H; exact H. Qed.

Lemma emits_forEach (P : event -> bool) arr (callback : value -> M unit) :
  (forall x, emits P (callback x)) -> emits P (forEach arr callback).
Proof.
  intros H. destruct arr; try apply emits_lift.
  simpl. induction elems as [|x rest IH]; [constructor|].
  apply emits_bind; [apply emits_call, H | intros _; exact IH].
Qed.

Lemma emits_weaken (P Q : event -> bool) {A} (m : M A) :
  (forall ev, P ev = true -> Q ev = true) -> emits P m -> emits Q m.
Proof. intros H Hm. unfold emits in *. eapply List.Forall_impl; [exact H | exact Hm]. Qed.

Section Logs.

(** A property that every [console.log] has. *)
Variable P : event -> bool.
Hypothesis P_log : forall args, P (ConsoleLog args) = true.

Lemma emits_console_log args : emits P (console_log args).
Proof. apply emits_emit, P_log. Qed.

Lemma emits_log_line line : emits P (log_line line).
Proof.
  unfold log_line. apply emits_bind; [apply emits_lift|].
  intros. apply emits_console_log.
Qed.

Ltac emits_step :=
  first
    [ apply emits_lift | apply emits_ret | apply emits_return
    | apply emits_console_log | apply emits_log_line
    | apply emits_when
    | apply emits_forEach; intros ?
    | apply emits_bind; [|intros ?] ].

Lemma emits_option_sections optionInfo : emits P (option_sections optionInfo).
Proof.
  unfold option_sections, simple_section, combination_section,
    custom_section, standard_section.
  repeat emits_step.
Qed.

Lemma emits_formatter optionInfo : emits P (formatter optionInfo).
Proof.
  unfold formatter, option_sections, simple_section, combination_section,
    custom_section, standard_section.
  repeat emits_step.
Qed.

End Logs.

(** X3: whatever the value of [optionInfo], well formed or not, the
    formatter does nothing but [console.log]: it calls neither the client
    nor [console.error]. *)
Theorem formatter_logs_only (optionInfo : value) :
  Forall (fun ev => is_console_log ev = true) (fst (formatter optionInfo)).
Proof. apply (emits_formatter is_console_log). reflexivity. Qed.

(** ** The calls of a run *)

Lemma fst_getProductOptionExample env productId :
  fst (getProductOptionExample env productId)
  = fst (getProductOptionExample_body env productId).
Proof.
  unfold getProductOptionExample.
  destruct (getProductOptionExample_body env productId) as [t [[]| |e]]; reflexivity.
Qed.

Lemma collaborator_events_console (t : list event) :
  Forall (fun ev => is_console ev = true) t -> collaborator_events t = [].
Proof.
  induction 1 as [|ev t Hev _ IH]; [reflexivity|].
  destruct ev; simpl in *; (exact IH || discriminate).
Qed.

Lemma collaborator_events_app (t1 t2 : list event) :
  collaborator_events (t1 ++ t2)
  = (collaborator_events t1 ++ collaborator_events t2)%list.
Proof. apply List.filter_app. Qed.

Lemma formatter_console (optionInfo : value) :
  Forall (fun ev => is_console ev = true) (fst (formatter optionInfo)).
Proof. apply (emits_formatter is_console). reflexivity. Qed.

Lemma delegated_parser_events naverAPI optionInfo productId :
  collaborator_events (fst (delegated_parser naverAPI optionInfo productId))
  = [CallParseOptionInfo optionInfo (VStr productId)].
Proof.
  unfold delegated_parser, call_parseOptionInfo, console_log.
  rewrite bind_emit, bind_assoc, bind_emit. simpl.
  destruct (parseOptionInfo naverAPI optionInfo (VStr productId)); reflexivity.
Qed.

Lemma try_block_events naverAPI productId :
  collaborator_events (fst (try_block naverAPI productId))
  = [CallGetChannelProductDetail (VStr productId)]
  \/ exists productDetail optionInfo,
       getChannelProductDetail naverAPI (VStr productId) = Returns productDetail
       /\ read_optionInfo productDetail = Returns optionInfo
       /\ collaborator_events (fst (try_block naverAPI productId))
          = [CallGetChannelProductDetail (VStr productId);
             CallParseOptionInfo optionInfo (VStr productId)].
Proof.
  unfold try_block.
  destruct (getChannelProductDetail naverAPI (VStr productId)) as [pd|e] eqn:Hf.
  2: { rewrite (await_Throws _ _ _ _ Hf). left; reflexivity. }
  rewrite (await_Returns _ _ _ _ Hf).
  destruct (truthy pd); [|left; reflexivity].
  simpl when_. rewrite bind_ret. cbn [fst].
  change (collaborator_events (?x :: ?t)) with (x :: collaborator_events t).
  rewrite fst_bind, collaborator_events_app.
  destruct (plain_log_line
              (let? name := Get pd "name" in
               let? s := ToString name in Returns (product_name_prefix +:+ s)))
    as [Hc _].
  rewrite (collaborator_events_console _ Hc). simpl app.
  destruct (snd (log_line _)); [|left; reflexivity..].
  destruct (read_optionInfo pd) as [optionInfo|e] eqn:Hr; [|left; reflexivity].
  rewrite bind_lift_Returns, fst_bind, collaborator_events_app.
  rewrite (collaborator_events_console _ (formatter_console optionInfo)).
  simpl app.
  destruct (snd (formatter optionInfo)); [|left; reflexivity..].
  right. exists pd, optionInfo. rewrite delegated_parser_events. auto.
Qed.

(** X1: a run constructs the client and fetches the product detail once
    each, in that order, exactly when both credentials are set; the only
    call that may follow is one call of [parseOptionInfo], and it receives
    the [optionInfo] read from the fetched detail and the product
    identifier, both unchanged. *)
Theorem calls_in_order env productId :
  (negb (truthy (process_env env "NAVER_CLIENT_ID"))
   || negb (truthy (process_env env "NAVER_CLIENT_SECRET")) = true
   /\ collaborator_events (fst (getProductOptionExample env productId)) = [])
  \/ exists clientId clientSecret,
       credentials env clientId clientSecret
       /\ let naverAPI := NaverCommerceAPI (VStr clientId) (VStr clientSecret) in
          let calls := collaborator_events (fst (getProductOptionExample env productId)) in
          calls = [Construct (VStr clientId) (VStr clientSecret);
                   CallGetChannelProductDetail (VStr productId)]
          \/ exists productDetail optionInfo,
               getChannelProductDetail naverAPI (VStr productId) = Returns productDetail
               /\ read_optionInfo productDetail = Returns optionInfo
               /\ calls = [Construct (VStr clientId) (VStr clientSecret);
                           CallGetChannelProductDetail (VStr productId);
                           CallParseOptionInfo optionInfo (VStr productId)].
Proof.
  rewrite fst_getProductOptionExample.
  destruct (credentials_cases env) as [H | (i & c & H)].
  - left. split; [exact H|]. by rewrite (body_without_credentials _ _ H).
  - right. exists i, c. split; [exact H|].
    rewrite (body_with_credentials _ _ _ _ H). cbn [fst]. cbv zeta.
    set (naverAPI := NaverCommerceAPI (VStr i) (VStr c)).
    rewrite collaborator_events_app, fst_try_catch, collaborator_events_app.
    assert (E : collaborator_events
                  match snd (try_block naverAPI productId) with
                  | Throw e =>
                      if is_nullish e then []
                      else [ConsoleError [VStr error_prefix; message e]]
                  | _ => []
                  end = []).
    { destruct (snd (try_block naverAPI productId)) as [[]| |e];
        [| |destruct (is_nullish e)]; reflexivity. }
    rewrite E, app_nil_r.
    destruct (try_block_events naverAPI productId) as [-> | (pd & oi & Hf & Hr & ->)].
    + left; reflexivity.
    + right. exists pd, oi. auto.
Qed.

(** ** [console.error] ends the run *)

Lemma quiet_then_error (q : list event) (e : event) :
  Forall (fun ev => not_console_error ev = true) q ->
  ends_at_error (q ++ [e]).
Proof.
  intros Hq t1 ev t2. revert t1.
  induction Hq as [|a q Ha _ IH]; intros t1 E Hev.
  - destruct t1 as [|x t1]; simpl in E.
    + by injection E as _ <-.
    + injection E as _ E. by destruct t1.
  - destruct t1 as [|x t1]; simpl in E.
    + injection E as -> _. unfold not_console_error in Ha.
      rewrite Hev in Ha. discriminate.
    + injection E as _ E. by apply (IH t1).
Qed.

Lemma quiet_ends_at_error (q : list event) :
  Forall (fun ev => not_console_error ev = true) q -> ends_at_error q.
Proof.
  intros Hq t1 ev t2 -> Hev.
  apply Forall_app in Hq as [_ Hq]. inversion Hq as [|? ? Ha _]; subst.
  unfold not_console_error in Ha. rewrite Hev in Ha. discriminate.
Qed.

Lemma error_count_quiet (q : list event) :
  Forall (fun ev => not_console_error ev = true) q ->
  List.filter is_console_error q = [].
Proof.
  induction 1 as [|ev q Hev _ IH]; [reflexivity|].
  simpl. unfold not_console_error in Hev.
  destruct (is_console_error ev); [discriminate | exact IH].
Qed.

Lemma emits_delegated_parser naverAPI optionInfo productId :
  emits not_console_error (delegated_parser naverAPI optionInfo productId).
Proof.
  unfold delegated_parser, call_parseOptionInfo.
  repeat (apply emits_bind; [|intros ?]);
    (apply emits_lift || (apply emits_emit; reflexivity)).
Qed.

Lemma try_block_quiet naverAPI productId :
  emits not_console_error (try_block naverAPI productId)
  \/ try_block naverAPI productId
     = ([CallGetChannelProductDetail (VStr productId);
         ConsoleError [VStr not_found_message]],
        Return).
Proof.
  unfold try_block.
  destruct (getChannelProductDetail naverAPI (VStr productId)) as [pd|e] eqn:Hf.
  2: { left. rewrite (await_Throws _ _ _ _ Hf). by repeat constructor. }
  rewrite (await_Returns _ _ _ _ Hf).
  destruct (truthy pd); [|right; reflexivity].
  left. simpl when_. rewrite bind_ret. constructor; [reflexivity|].
  cbn [fst].
  change (emits not_console_error
            (log_line (let? name := Get pd "name" in
                       let? s := ToString name in Returns (product_name_prefix +:+ s)) ;;
             let! optionInfo := lift (read_optionInfo pd) in
             formatter optionInfo ;; delegated_parser naverAPI optionInfo productId)).
  apply emits_bind; [by apply emits_log_line|]. intros _.
  apply emits_bind; [apply emits_lift|]. intros optionInfo.
  apply emits_bind; [by apply emits_formatter|]. intros _.
  apply emits_delegated_parser.
Qed.

Lemma run_quiet_then_error env productId :
  exists q,
    Forall (fun ev => not_console_error ev = true) q
    /\ (fst (getProductOptionExample env productId) = q
        \/ exists args,
             fst (getProductOptionExample env productId)
             = (q ++ [ConsoleError args])%list).
Proof.
  rewrite fst_getProductOptionExample.
  destruct (credentials_cases env) as [H | (i & c & H)].
  - rewrite (body_without_credentials _ _ H). exists []. split; [constructor|].
    right. eexists. reflexivity.
  - rewrite (body_with_credentials _ _ _ _ H). cbn [fst].
    set (naverAPI := NaverCommerceAPI (VStr i) (VStr c)).
    destruct (try_block_quiet naverAPI productId) as [Hq | ->].
    + rewrite fst_try_catch.
      exists (prelude i c productId ++ fst (try_block naverAPI productId))%list.
      split; [apply Forall_app; split; [by repeat constructor | exact Hq]|].
      destruct (snd (try_block naverAPI productId)) as [[]| |e];
        [| |destruct (is_nullish e)].
      * left. by rewrite app_nil_r.
      * left. by rewrite app_nil_r.
      * left. by rewrite app_nil_r.
      * right. eexists. by rewrite app_assoc.
    + exists (prelude i c productId ++ [CallGetChannelProductDetail (VStr productId)])%list.
      split; [by repeat constructor|]. right. eexists. reflexivity.
Qed.

(** X2: a run calls [console.error] at most once, and nothing follows that
    call: no output and no call of the client.  Each of the three error
    reports ends the flow. *)
Theorem console_error_ends_run env productId :
  (length (List.filter is_console_error (fst (getProductOptionExample env productId)))
   <= 1)%nat
  /\ ends_at_error (fst (getProductOptionExample env productId)).
Proof.
  destruct (run_quiet_then_error env productId) as (q & Hq & [-> | [args ->]]).
  - split; [|by apply quiet_ends_at_error].
    rewrite (error_count_quiet _ Hq). simpl. lia.
  - split; [|by apply quiet_then_error].
    rewrite List.filter_app, (error_count_quiet _ Hq). simpl. lia.
Qed.

(** ** What the report can throw *)

Lemma TypeError_has_properties (t : type_error) : is_nullish (TypeError t) = false.
Proof. reflexivity. Qed.

Lemma throws_objects_Returns {A} (a : A) : throws_objects (Returns a).
Proof. intros e H. discriminate H. Qed.

Lemma throws_objects_TypeError {A} (t : type_error) :
  throws_objects (Throws (A := A) (TypeError t)).
Proof. intros e [= <-]. reflexivity. Qed.

Lemma throws_objects_bind {A B} (r : result A) (k : A -> result B) :
  throws_objects r -> (forall a, throws_objects (k a)) ->
  throws_objects (result_bind r k).
Proof.
  intros Hr Hk e. destruct r as [a|e']; simpl.
  - apply Hk.
  - intros [= <-]. by apply Hr.
Qed.

Lemma throws_objects_Get (v : value) (p : string) : throws_objects (Get v p).
Proof.
  destruct v; simpl;
    (apply throws_objects_Returns || apply throws_objects_TypeError).
Qed.

Lemma throws_objects_join_with (to_string : value -> result string)
    (sep : string) (elems : list value) :
  (forall x, throws_objects (to_string x)) ->
  throws_objects (join_with to_string sep elems).
Proof.
  intros H. induction elems as [|x rest IH]; simpl.
  - apply throws_objects_Returns.
  - apply throws_objects_bind;
      [destruct (is_nullish x); [apply throws_objects_Returns | apply H]|].
    intros s. apply throws_objects_bind; [exact IH|].
    intros ss. apply throws_objects_Returns.
Qed.

Lemma throws_objects_ToString (v : value) : throws_objects (ToString v).
Proof.
  revert v. fix IH 1. intros v. destruct v as [| | | | |elems|props]; simpl;
    try apply throws_objects_Returns.
  - apply throws_objects_bind; [|intros; apply throws_objects_Returns].
    induction elems as [|x rest IHl]; simpl.
    + apply throws_objects_Returns.
    + apply throws_objects_bind;
        [destruct (is_nullish x); [apply throws_objects_Returns | apply IH]|].
      intros s. apply throws_objects_bind; [exact IHl|].
      intros ss. apply throws_objects_Returns.
  - destruct (has_prop "toString" props);
      [apply throws_objects_TypeError | apply throws_objects_Returns].
Qed.

Lemma throws_objects_call_join (arr : value) (sep : string) :
  throws_objects (call_join arr sep).
Proof.
  destruct arr; simpl; try apply throws_objects_TypeError.
  apply throws_objects_bind; [|intros; apply throws_objects_Returns].
  apply throws_objects_join_with, throws_objects_ToString.
Qed.

Lemma throws_objects_gt0 (v : value) : throws_objects (gt0 v).
Proof.
  destruct v; try apply throws_objects_Returns;
    (apply throws_objects_bind;
       [apply throws_objects_ToString | intros; apply throws_objects_Returns]).
Qed.

Lemma throws_objects_present_and_non_empty (c : value) :
  throws_objects (present_and_non_empty c).
Proof.
  unfold present_and_non_empty. destruct (truthy c);
    [|apply throws_objects_Returns].
  apply throws_objects_bind; [apply throws_objects_Get|].
  intros len. apply throws_objects_gt0.
Qed.

Ltac throws_objects_step :=
  first
    [ apply throws_objects_Returns | apply throws_objects_Get
    | apply throws_objects_ToString | apply throws_objects_call_join
    | apply throws_objects_present_and_non_empty
    | apply throws_objects_bind; [|intros ?] ].

Lemma throws_objects_standard_name (std : value) :
  throws_objects (standard_name std).
Proof.
  unfold standard_name. apply throws_objects_bind; [apply throws_objects_Get|].
  intros optionName. destruct (truthy optionName);
    [apply throws_objects_Returns | apply throws_objects_Get].
Qed.

Lemma throws_objects_simple_line e : throws_objects (simple_line e).
Proof. unfold simple_line. repeat throws_objects_step. Qed.

Lemma throws_objects_combination_line e : throws_objects (combination_line e).
Proof. unfold combination_line. repeat throws_objects_step. Qed.

Lemma throws_objects_custom_line e : throws_objects (custom_line e).
Proof. unfold custom_line. repeat throws_objects_step. Qed.

Lemma throws_objects_standard_line e : throws_objects (standard_line e).
Proof.
  unfold standard_line.
  apply throws_objects_bind; [apply throws_objects_standard_name|].
  intros name. repeat throws_objects_step.
Qed.

Lemma raises_objects_bind {A B} (m : M A) (k : A -> M B) :
  raises_objects m -> (forall a, raises_objects (k a)) -> raises_objects (bind m k).
Proof.
  intros Hm Hk e. rewrite snd_bind.
  destruct (snd m) as [a| |e'] eqn:E.
  - apply Hk.
  - discriminate.
  - intros [= <-]. by apply Hm.
Qed.

Lemma raises_objects_lift {A} (r : result A) :
  throws_objects r -> raises_objects (lift r).
Proof. intros H e. destruct r; simpl; [discriminate|]. intros [= <-]. by apply H. Qed.

Lemma raises_objects_ret {A} (a : A) : raises_objects (ret a).
Proof. intros e H. discriminate H. Qed.

Lemma raises_objects_console_log args : raises_objects (console_log args).
Proof. intros e H. discriminate H. Qed.

Lemma raises_objects_log_line line :
  throws_objects line -> raises_objects (log_line line).
Proof.
  intros H. unfold log_line. apply raises_objects_bind;
    [by apply raises_objects_lift | intros; apply raises_objects_console_log].
Qed.

Lemma raises_objects_when c (body : M unit) :
  raises_objects body -> raises_objects (when_ c body).
Proof. intros H. destruct c; [exact H | apply raises_objects_ret]. Qed.

Lemma raises_objects_call (body : M unit) :
  raises_objects body -> raises_objects (call body).
Proof. destruct body as [t [[]| |e]]; intros H; (exact H || (intros e' H'; discriminate H')). Qed.

Lemma raises_objects_forEach arr (callback : value -> M unit) :
  (forall x, raises_objects (callback x)) -> raises_objects (forEach arr callback).
Proof.
  intros H. destruct arr;
    try (apply raises_objects_lift, throws_objects_TypeError).
  simpl. induction elems as [|x rest IH]; [apply raises_objects_ret|].
  apply raises_objects_bind; [apply raises_objects_call, H | intros _; exact IH].
Qed.

Ltac raises_objects_step :=
  first
    [ apply raises_objects_ret | apply raises_objects_console_log
    | apply raises_objects_when
    | apply raises_objects_lift; first
        [ apply throws_objects_Get | apply throws_objects_present_and_non_empty ]
    | apply raises_objects_log_line; first
        [ apply throws_objects_simple_line | apply throws_objects_combination_line
        | apply throws_objects_custom_line | apply throws_objects_standard_line
        | apply throws_objects_bind;
          [apply throws_objects_call_join | intros ?; apply throws_objects_Returns] ]
    | apply raises_objects_forEach; intros ?
    | apply raises_objects_bind; [|intros ?] ].

(** What a section throws is an error of the engine, never [null] or
    [undefined]. *)
Lemma raises_objects_option_sections optionInfo :
  raises_objects (option_sections optionInfo).
Proof.
  unfold option_sections, simple_section, combination_section,
    custom_section, standard_section.
  repeat raises_objects_step.
Qed.

(** ** The run on a product that has option information *)

Lemma try_block_present naverAPI productId (productDetail optionInfo : value)
    (name : string) :
  getChannelProductDetail naverAPI (VStr productId) = Returns productDetail ->
  truthy productDetail = true ->
  (let? n := Get productDetail "name" in ToString n) = Returns name ->
  read_optionInfo productDetail = Returns optionInfo ->
  try_block naverAPI productId
  = (CallGetChannelProductDetail (VStr productId)
       :: ConsoleLog [VStr (product_name_prefix +:+ name)]
       :: fst (formatter optionInfo ;; delegated_parser naverAPI optionInfo productId),
     snd (formatter optionInfo ;; delegated_parser naverAPI optionInfo productId)).
Proof.
  intros Hfetch Htruthy Hname Hread.
  unfold try_block. rewrite (await_Returns _ _ _ _ Hfetch), Htruthy.
  simpl when_. rewrite bind_ret.
  unfold log_line.
  destruct (Get productDetail "name") as [n|e] eqn:En; simpl in Hname; [|discriminate].
  simpl result_bind. rewrite Hname. simpl result_bind.
  rewrite bind_assoc, bind_lift_Returns. unfold console_log. rewrite bind_emit.
  rewrite Hread, bind_lift_Returns. reflexivity.
Qed.

Lemma formatter_sections optionInfo (ts : list event) (c : completion unit) :
  truthy optionInfo = true ->
  option_sections optionInfo = (ts, c) ->
  formatter optionInfo
  = (ConsoleLog [VStr raw_data_header]
       :: ConsoleLog [JSON_stringify optionInfo]
       :: ConsoleLog [VStr breakdown_header] :: ts,
     c).
Proof. intros Ht Hs. rewrite (formatter_present _ Ht), Hs. reflexivity. Qed.

Lemma delegated_parser_Returns naverAPI optionInfo productId parsed :
  parseOptionInfo naverAPI optionInfo (VStr productId) = Returns parsed ->
  delegated_parser naverAPI optionInfo productId
  = ([ConsoleLog [VStr parser_header];
      CallParseOptionInfo optionInfo (VStr productId);
      ConsoleLog [JSON_stringify parsed]],
     Normal tt).
Proof.
  intros H. unfold delegated_parser, call_parseOptionInfo, console_log.
  rewrite bind_emit, bind_assoc, bind_emit, H, bind_lift_Returns. reflexivity.
Qed.

Lemma delegated_parser_Throws naverAPI optionInfo productId e :
  parseOptionInfo naverAPI optionInfo (VStr productId) = Throws e ->
  delegated_parser naverAPI optionInfo productId
  = ([ConsoleLog [VStr parser_header];
      CallParseOptionInfo optionInfo (VStr productId)],
     Throw e).
Proof.
  intros H. unfold delegated_parser, call_parseOptionInfo, console_log.
  rewrite bind_emit, bind_assoc, bind_emit, H, bind_lift_Throws. reflexivity.
Qed.

Ltac same_events :=
  unfold report_prefix, prelude;
  repeat (cbn [app]; rewrite <- ?app_assoc, ?app_nil_r);
  reflexivity.

Lemma run_of_try_block env productId clientId clientSecret
    (t : list event) (c : completion unit) :
  credentials env clientId clientSecret ->
  try_block (NaverCommerceAPI (VStr clientId) (VStr clientSecret)) productId = (t, c) ->
  (forall e, c = Throw e -> is_nullish e = false) ->
  getProductOptionExample env productId
  = ((prelude clientId clientSecret productId ++ t
      ++ match c with
         | Throw e => [ConsoleError [VStr error_prefix; message e]]
         | _ => []
         end)%list,
     Fulfilled).
Proof.
  intros Hc Ht Hobject. unfold getProductOptionExample.
  rewrite (body_with_credentials _ _ _ _ Hc), Ht.
  destruct c as [[]| |e]; cbn [try_catch fst snd]; rewrite ?app_nil_r; try reflexivity.
  change (try_catch (t, Throw e) catch_clause)
    with (let (t', c) := catch_clause e in ((t ++ t')%list, c)).
  by rewrite (catch_clause_caught _ (Hobject e eq_refl)).
Qed.

(** X11: with both credentials set every run begins the same way: it
    constructs the client with the two credentials, prints the start line
    with the product identifier and only then fetches the product detail. *)
Theorem run_starts env productId clientId clientSecret :
  credentials env clientId clientSecret ->
  exists rest,
    fst (getProductOptionExample env productId)
    = (prelude clientId clientSecret productId
       ++ CallGetChannelProductDetail (VStr productId) :: rest)%list.
Proof.
  intros Hc. rewrite fst_getProductOptionExample.
  rewrite (body_with_credentials _ _ _ _ Hc). cbn [fst].
  set (naverAPI := NaverCommerceAPI (VStr clientId) (VStr clientSecret)).
  rewrite fst_try_catch. unfold try_block, await_getChannelProductDetail.
  rewrite bind_assoc, bind_emit. cbn [fst snd app]. eexists. reflexivity.
Qed.

(** X4: on a product with option information whose report completes, the
    run prints the product name, the raw data, the sections, then the
    header of the parser, calls [parseOptionInfo] and prints the JSON text
    of what it returns; the promise is fulfilled. *)
Theorem run_report_complete env productId clientId clientSecret
    (productDetail optionInfo parsed : value) (name : string) (ts : list event) :
  credentials env clientId clientSecret ->
  let naverAPI := NaverCommerceAPI (VStr clientId) (VStr clientSecret) in
  getChannelProductDetail naverAPI (VStr productId) = Returns productDetail ->
  truthy productDetail = true ->
  (let? n := Get productDetail "name" in ToString n) = Returns name ->
  read_optionInfo productDetail = Returns optionInfo ->
  truthy optionInfo = true ->
  option_sections optionInfo = (ts, Normal tt) ->
  parseOptionInfo naverAPI optionInfo (VStr productId) = Returns parsed ->
  getProductOptionExample env productId
  = ((report_prefix clientId clientSecret productId name optionInfo
      ++ ts
      ++ [ConsoleLog [VStr parser_header];
          CallParseOptionInfo optionInfo (VStr productId);
          ConsoleLog [JSON_stringify parsed]])%list,
     Fulfilled).
Proof.
  intros Hc naverAPI Hfetch Hpd Hname Hread Hoi Hts Hparse.
  rewrite (run_of_try_block env productId clientId clientSecret
             (CallGetChannelProductDetail (VStr productId)
                :: ConsoleLog [VStr (product_name_prefix +:+ name)]
                :: ConsoleLog [VStr raw_data_header]
                :: ConsoleLog [JSON_stringify optionInfo]
                :: ConsoleLog [VStr breakdown_header]
                :: ts
                ++ [ConsoleLog [VStr parser_header];
                    CallParseOptionInfo optionInfo (VStr productId);
                    ConsoleLog [JSON_stringify parsed]])%list
             (Normal tt) Hc).
  - same_events.
  - fold naverAPI.
    rewrite (try_block_present _ _ _ _ _ Hfetch Hpd Hname Hread).
    rewrite (formatter_sections _ _ _ Hoi Hts), bind_events.
    rewrite (delegated_parser_Returns _ _ _ _ Hparse). reflexivity.
  - discriminate.
Qed.

(** X5: when [parseOptionInfo] throws anything but [null] or [undefined],
    the report has been printed in full before the call; the run then
    prints the error prefix with the [message] of what was thrown and the
    promise is fulfilled. *)
Theorem run_parser_failure env productId clientId clientSecret
    (productDetail optionInfo : value) (name : string) (ts : list event) (e : Error) :
  credentials env clientId clientSecret ->
  let naverAPI := NaverCommerceAPI (VStr clientId) (VStr clientSecret) in
  getChannelProductDetail naverAPI (VStr productId) = Returns productDetail ->
  truthy productDetail = true ->
  (let? n := Get productDetail "name" in ToString n) = Returns name ->
  read_optionInfo productDetail = Returns optionInfo ->
  truthy optionInfo = true ->
  option_sections optionInfo = (ts, Normal tt) ->
  parseOptionInfo naverAPI optionInfo (VStr productId) = Throws e ->
  is_nullish e = false ->
  getProductOptionExample env productId
  = ((report_prefix clientId clientSecret productId name optionInfo
      ++ ts
      ++ [ConsoleLog [VStr parser_header];
          CallParseOptionInfo optionInfo (VStr productId);
          ConsoleError [VStr error_prefix; message e]])%list,
     Fulfilled).
Proof.
  intros Hc naverAPI Hfetch Hpd Hname Hread Hoi Hts Hparse Hobject.
  rewrite (run_of_try_block env productId clientId clientSecret
             (CallGetChannelProductDetail (VStr productId)
                :: ConsoleLog [VStr (product_name_prefix +:+ name)]
                :: ConsoleLog [VStr raw_data_header]
                :: ConsoleLog [JSON_stringify optionInfo]
                :: ConsoleLog [VStr breakdown_header]
                :: ts
                ++ [ConsoleLog [VStr parser_header];
                    CallParseOptionInfo optionInfo (VStr productId)])%list
             (Throw e) Hc).
  - same_events.
  - fold naverAPI.
    rewrite (try_block_present _ _ _ _ _ Hfetch Hpd Hname Hread).
    rewrite (formatter_sections _ _ _ Hoi Hts), bind_events.
    rewrite (delegated_parser_Throws _ _ _ _ Hparse). reflexivity.
  - by intros e' [= <-].
Qed.

(** X6: when a section of the report throws, the run prints what the
    report had printed until then, followed by the error with its message;
    the header of the parser is not printed and [parseOptionInfo] is not
    called. *)
Theorem run_report_failure env productId clientId clientSecret
    (productDetail optionInfo : value) (name : string) (ts : list event) (e : Error) :
  credentials env clientId clientSecret ->
  let naverAPI := NaverCommerceAPI (VStr clientId) (VStr clientSecret) in
  getChannelProductDetail naverAPI (VStr productId) = Returns productDetail ->
  truthy productDetail = true ->
  (let? n := Get productDetail "name" in ToString n) = Returns name ->
  read_optionInfo productDetail = Returns optionInfo ->
  truthy optionInfo = true ->
  option_sections optionInfo = (ts, Throw e) ->
  getProductOptionExample env productId
  = ((report_prefix clientId clientSecret productId name optionInfo
      ++ ts ++ [ConsoleError [VStr error_prefix; message e]])%list,
     Fulfilled)
  /\ parse_calls (fst (getProductOptionExample env productId)) = [].
Proof.
  intros Hc naverAPI Hfetch Hpd Hname Hread Hoi Hts.
  assert (E : getProductOptionExample env productId
              = ((report_prefix clientId clientSecret productId name optionInfo
                  ++ ts ++ [ConsoleError [VStr error_prefix; message e]])%list,
                 Fulfilled)).
  { rewrite (run_of_try_block env productId clientId clientSecret
               (CallGetChannelProductDetail (VStr productId)
                  :: ConsoleLog [VStr (product_name_prefix +:+ name)]
                  :: ConsoleLog [VStr raw_data_header]
                  :: ConsoleLog [JSON_stringify optionInfo]
                  :: ConsoleLog [VStr breakdown_header]
                  :: ts)
               (Throw e) Hc).
    - same_events.
    - fold naverAPI.
      rewrite (try_block_present _ _ _ _ _ Hfetch Hpd Hname Hread).
      rewrite (formatter_sections _ _ _ Hoi Hts). reflexivity.
    - intros e' [= <-].
      apply (raises_objects_option_sections optionInfo). by rewrite Hts. }
  split; [exact E|]. rewrite E. cbn [fst].
  rewrite !parse_calls_app.
  destruct (plain_option_sections optionInfo) as [Hconsole _].
  rewrite Hts in Hconsole. cbn [fst] in Hconsole.
  rewrite (parse_calls_console _ Hconsole). reflexivity.
Qed.

(** X10: a fetched object that has neither [name] nor [originProduct], the
    empty object among them, is a product and not a missing one: the run
    prints the name as undefined, then the notice of a product without
    options, and the promise is fulfilled. *)
Theorem empty_detail_is_a_product env productId clientId clientSecret
    (props : list (string * value)) :
  credentials env clientId clientSecret ->
  getChannelProductDetail (NaverCommerceAPI (VStr clientId) (VStr clientSecret))
    (VStr productId) = Returns (VObj props) ->
  lookup_prop "name" props = VUndefined ->
  is_nullish (lookup_prop "originProduct" props) = true ->
  getProductOptionExample env productId
  = ((prelude clientId clientSecret productId
      ++ [CallGetChannelProductDetail (VStr productId);
          ConsoleLog [VStr (product_name_prefix +:+ "undefined")];
          ConsoleLog [VStr no_options_notice]])%list,
     Fulfilled).
Proof.
  intros Hc Hfetch Hname Horigin.
  rewrite (run_of_try_block env productId clientId clientSecret
             [CallGetChannelProductDetail (VStr productId);
              ConsoleLog [VStr (product_name_prefix +:+ "undefined")];
              ConsoleLog [VStr no_options_notice]]
             Return Hc).
  - by rewrite app_nil_r.
  - rewrite (try_block_present _ _ (VObj props) VUndefined "undefined" Hfetch eq_refl).
    + reflexivity.
    + simpl. by rewrite Hname.
    + apply read_optionInfo_absent. by left.
  - discriminate.
Qed.

(** ** A section that fails part way *)

Lemma forEach_stops (line_of : value -> result string)
    (good : list value) (bad : value) (rest : list value)
    (lines : list string) (e : Error) :
  Forall2 (fun x l => line_of x = Returns l) good lines ->
  line_of bad = Throws e ->
  forEach (VArr (good ++ bad :: rest)) (fun x => log_line (line_of x))
  = (logged lines, Throw e).
Proof.
  intros Hgood Hbad.
  induction Hgood as [|x l good lines Hx _ IH].
  - simpl. unfold log_line. rewrite Hbad. reflexivity.
  - simpl in *. unfold log_line at 1. rewrite Hx, bind_lift_Returns.
    unfold console_log, emit. simpl call. rewrite bind_events, IH. reflexivity.
Qed.

(** X7: when an entry of [optionSimple] cannot be printed, a [null] entry
    for one, the section prints its header and the lines of the entries
    before that one and then throws: the entries after it and the three
    other sections are not printed. *)
Theorem simple_section_stops props (good : list value) (bad : value)
    (rest : list value) (lines : list string) (e : Error) :
  lookup_prop "optionSimple" props = VArr (good ++ bad :: rest) ->
  Forall2 (fun x l => simple_line x = Returns l) good lines ->
  simple_line bad = Throws e ->
  simple_section (VObj props) = (logged (simple_header :: lines), Throw e)
  /\ option_sections (VObj props) = (logged (simple_header :: lines), Throw e).
Proof.
  intros Hc Hgood Hbad.
  assert (E : simple_section (VObj props) = (logged (simple_header :: lines), Throw e)).
  { unfold simple_section. simpl Get. rewrite bind_lift_Returns, Hc.
    rewrite (present_and_non_empty_entries _ _ (entries_array _)), bind_lift_Returns.
    replace (match (good ++ bad :: rest)%list with [] => false | _ => true end)
      with true by (by destruct good).
    rewrite when_true. unfold console_log. rewrite bind_emit.
    rewrite (forEach_stops simple_line _ _ _ _ _ Hgood Hbad). reflexivity. }
  split; [exact E|]. unfold option_sections. rewrite E. reflexivity.
Qed.

(** ** The names of the groups *)

(** X8: group names that are present but not an array, a string for one,
    make the section of the combinations throw after its header: [join]
    is not a function of such a value, and no combination is printed. *)
Theorem group_names_not_an_array props (entry : value) (entries : list value)
    (names : value) :
  lookup_prop "optionCombinations" props = VArr (entry :: entries) ->
  lookup_prop "optionCombinationGroupNames" props = names ->
  truthy names = true ->
  (forall elems, names <> VArr elems) ->
  combination_section (VObj props)
  = ([ConsoleLog [VStr combination_header]],
     Throw (TypeError (is_not_a_function "join"))).
Proof.
  intros Hc Hn Ht Harr. unfold combination_section.
  simpl Get. rewrite bind_lift_Returns, Hc.
  rewrite (present_and_non_empty_entries _ _ (entries_array _)), bind_lift_Returns.
  cbv beta iota. rewrite when_true. unfold console_log. rewrite bind_emit.
  rewrite bind_lift_Returns, Hn. unfold or_else. rewrite Ht.
  destruct names; try discriminate Ht; try reflexivity.
  exfalso. by apply (Harr elems).
Qed.

(** X9: group names that are falsy, such as [false], [0] or the empty
    string, count as absent: the section prints the line of the group
    names with no name, then every combination. *)
Theorem group_names_falsy props (entry : value) (entries : list value)
    (lines : list string) :
  lookup_prop "optionCombinations" props = VArr (entry :: entries) ->
  truthy (lookup_prop "optionCombinationGroupNames" props) = false ->
  Forall2 (fun x l => combination_line x = Returns l) (entry :: entries) lines ->
  combination_section (VObj props)
  = (logged (combination_header :: group_names_prefix :: lines), Normal tt).
Proof.
  intros Hc Hn Hlines. unfold combination_section.
  simpl Get. rewrite bind_lift_Returns, Hc.
  rewrite (present_and_non_empty_entries _ _ (entries_array _)), bind_lift_Returns.
  cbv beta iota. rewrite when_true. unfold console_log at 1. rewrite bind_emit.
  rewrite bind_lift_Returns. unfold or_else. rewrite Hn.
  unfold log_line at 1. simpl result_bind. rewrite bind_assoc, bind_lift_Returns.
  unfold console_log. rewrite bind_emit.
  rewrite (forEach_lines combination_line _ _ Hlines). reflexivity.
Qed.

(** ** What the sections read *)

(** X12: the sections read five properties of [optionInfo] and nothing
    else: two objects that agree on the four collections and on the group
    names give the same sections, whatever other properties they hold. *)
Theorem sections_read_five_properties (props props' : list (string * value)) :
  lookup_prop "optionSimple" props = lookup_prop "optionSimple" props' ->
  lookup_prop "optionCombinations" props = lookup_prop "optionCombinations" props' ->
  lookup_prop "optionCombinationGroupNames" props
  = lookup_prop "optionCombinationGroupNames" props' ->
  lookup_prop "optionCustom" props = lookup_prop "optionCustom" props' ->
  lookup_prop "optionStandards" props = lookup_prop "optionStandards" props' ->
  option_sections (VObj props) = option_sections (VObj props').
Proof.
  intros H1 H2 H3 H4 H5.
  unfold option_sections, simple_section, combination_section,
    custom_section, standard_section.
  simpl Get. rewrite !bind_lift_Returns, H1, H2, H3, H4, H5. reflexivity.
Qed.

End Script.

(** ** Closed examples *)

Lemma C3_missing_credentials_witness :
  (secret_only_env !! "NAVER_CLIENT_ID" = None
   \/ secret_only_env !! "NAVER_CLIENT_SECRET" = None)
  /\ getProductOptionExample sample_TypeError_message sample_StringToNumber_gt0 sample_large_Number_toString
       (sample_client (fun _ => Returns VNull) echo_parser)
       secret_only_env TARGET_PRODUCT_ID
     = ([ConsoleError [VStr missing_credentials_message]], Fulfilled).
Proof.
  assert (H : secret_only_env !! "NAVER_CLIENT_ID" = None
              \/ secret_only_env !! "NAVER_CLIENT_SECRET" = None)
    by (left; reflexivity).
  split; [exact H|].
  exact (proj1 (C3_missing_credentials sample_TypeError_message
                  sample_StringToNumber_gt0 sample_large_Number_toString
                  (sample_client (fun _ => Returns VNull) echo_parser)
                  secret_only_env TARGET_PRODUCT_ID H)).
Defined.

Lemma C10_empty_credentials_witness :
  (empty_secret_env !! "NAVER_CLIENT_ID" = Some ""
   \/ empty_secret_env !! "NAVER_CLIENT_SECRET" = Some "")
  /\ collaborator_calls
       (fst (getProductOptionExample sample_TypeError_message
               sample_StringToNumber_gt0 sample_large_Number_toString
               (sample_client (fun _ => Returns VNull) echo_parser)
               empty_secret_env TARGET_PRODUCT_ID))
     = 0%nat.
Proof.
  assert (H : empty_secret_env !! "NAVER_CLIENT_ID" = Some ""
              \/ empty_secret_env !! "NAVER_CLIENT_SECRET" = Some "")
    by (right; reflexivity).
  split; [exact H|].
  exact (proj2 (C10_empty_credentials sample_TypeError_message
                  sample_StringToNumber_gt0 sample_large_Number_toString
                  (sample_client (fun _ => Returns VNull) echo_parser)
                  empty_secret_env TARGET_PRODUCT_ID H)).
Defined.

Lemma sample_credentials : credentials sample_env "client-id" "client-secret".
Proof. repeat split; (reflexivity || discriminate). Defined.

Lemma C4_not_found_witness :
  credentials sample_env "client-id" "client-secret"
  /\ truthy VNull = false
  /\ getProductOptionExample sample_TypeError_message sample_StringToNumber_gt0 sample_large_Number_toString
       (sample_client (fun _ => Returns VNull) echo_parser)
       sample_env TARGET_PRODUCT_ID
     = ([Construct (VStr "client-id") (VStr "client-secret");
         ConsoleLog [VStr (start_message TARGET_PRODUCT_ID)];
         CallGetChannelProductDetail (VStr TARGET_PRODUCT_ID);
         ConsoleError [VStr not_found_message]],
        Fulfilled).
Proof.
  split; [exact sample_credentials|]. split; [reflexivity|].
  exact (C4_not_found sample_TypeError_message sample_StringToNumber_gt0 sample_large_Number_toString
           (sample_client (fun _ => Returns VNull) echo_parser)
           sample_env TARGET_PRODUCT_ID "client-id" "client-secret" VNull
           sample_credentials eq_refl eq_refl).
Defined.

Lemma C5_no_option_info_witness :
  credentials sample_env "client-id" "client-secret"
  /\ read_optionInfo sample_TypeError_message single_product = Returns VUndefined
  /\ getProductOptionExample sample_TypeError_message sample_StringToNumber_gt0 sample_large_Number_toString
       (sample_client (fun _ => Returns single_product) echo_parser)
       sample_env TARGET_PRODUCT_ID
     = ([Construct (VStr "client-id") (VStr "client-secret");
         ConsoleLog [VStr (start_message TARGET_PRODUCT_ID)];
         CallGetChannelProductDetail (VStr TARGET_PRODUCT_ID);
         ConsoleLog [VStr (product_name_prefix +:+ "Shirt")];
         ConsoleLog [VStr no_options_notice]],
        Fulfilled).
Proof.
  split; [exact sample_credentials|]. split; [reflexivity|].
  exact (C5_no_option_info sample_TypeError_message sample_StringToNumber_gt0 sample_large_Number_toString
           (sample_client (fun _ => Returns single_product) echo_parser)
           sample_env TARGET_PRODUCT_ID "client-id" "client-secret"
           single_product VUndefined "Shirt"
           sample_credentials eq_refl eq_refl eq_refl eq_refl eq_refl).
Defined.

Lemma C8_failures_are_caught_witness :
  credentials sample_env "client-id" "client-secret"
  /\ is_nullish (mkError (VStr "timeout")) = false
  /\ getProductOptionExample sample_TypeError_message sample_StringToNumber_gt0 sample_large_Number_toString
       (sample_client (fun _ => Throws (mkError (VStr "timeout"))) echo_parser)
       sample_env TARGET_PRODUCT_ID
     = ([Construct (VStr "client-id") (VStr "client-secret");
         ConsoleLog [VStr (start_message TARGET_PRODUCT_ID)];
         CallGetChannelProductDetail (VStr TARGET_PRODUCT_ID);
         ConsoleError [VStr error_prefix; VStr "timeout"]],
        Fulfilled).
Proof.
  split; [exact sample_credentials|]. split; [reflexivity|].
  exact (proj1 (C8_failures_are_caught sample_TypeError_message
                  sample_StringToNumber_gt0 sample_large_Number_toString
                  (sample_client (fun _ => Throws (mkError (VStr "timeout")))
                     echo_parser)
                  sample_env TARGET_PRODUCT_ID "client-id" "client-secret"
                  sample_credentials)
           (mkError (VStr "timeout")) eq_refl eq_refl).
Defined.

(** The claim C8 as the specification states it fails when the detail
    fetch rejects with [undefined]: the [catch] clause throws on the
    [message] of what it caught, nothing is printed as an error and the
    promise of the call is rejected, with nothing to handle it. *)
Lemma C8_counterexample :
  getProductOptionExample sample_TypeError_message sample_StringToNumber_gt0 sample_large_Number_toString
    (sample_client (fun _ => Throws VUndefined) echo_parser)
    sample_env TARGET_PRODUCT_ID
  = ([Construct (VStr "client-id") (VStr "client-secret");
      ConsoleLog [VStr (start_message TARGET_PRODUCT_ID)];
      CallGetChannelProductDetail (VStr TARGET_PRODUCT_ID)],
     Rejected (mkError (VStr "Cannot read properties of undefined (reading 'message')")))
  /\ List.filter is_console_error
       (fst (getProductOptionExample sample_TypeError_message
               sample_StringToNumber_gt0 sample_large_Number_toString
               (sample_client (fun _ => Throws VUndefined) echo_parser)
               sample_env TARGET_PRODUCT_ID))
     = []
  /\ snd (getProductOptionExample sample_TypeError_message
            sample_StringToNumber_gt0 sample_large_Number_toString
            (sample_client (fun _ => Throws VUndefined) echo_parser)
            sample_env TARGET_PRODUCT_ID)
     <> Fulfilled.
Proof.
  split; [vm_compute; reflexivity|]. split; [vm_compute; reflexivity|].
  vm_compute. discriminate.
Qed.

Lemma C6_sections_in_order_witness :
  entries_of (lookup_prop "optionSimple" report_fixture) [simple_entry]
  /\ spec_simple_line sample_TypeError_message sample_large_Number_toString simple_entry "  - Color: Red (ID: 1)"
  /\ spec_standard_line sample_TypeError_message sample_large_Number_toString standard_entry "  - Blue (ID: s1)"
  /\ option_sections sample_TypeError_message sample_StringToNumber_gt0 sample_large_Number_toString
       (VObj report_fixture)
     = (logged
          [simple_header; "  - Color: Red (ID: 1)";
           combination_header; group_names_prefix +:+ "Color, Size";
           "  - 조합: Red/L (ID: c1, 재고: 5개)";
           custom_header; "  - Engraving (글자수 제한: 10자)";
           standard_header; "  - Blue (ID: s1)"],
        Normal tt).
Proof.
  assert (S1 : spec_simple_line sample_TypeError_message sample_large_Number_toString simple_entry
                 "  - Color: Red (ID: 1)").
  { exists "Color", "Red", "1".
    repeat split; eexists; split; reflexivity. }
  assert (S2 : spec_combination_line sample_TypeError_message sample_large_Number_toString combination_entry
                 "  - 조합: Red/L (ID: c1, 재고: 5개)").
  { exists "Red/L", "c1", "5".
    repeat split; eexists; split; reflexivity. }
  assert (S3 : spec_custom_line sample_TypeError_message sample_large_Number_toString custom_entry
                 "  - Engraving (글자수 제한: 10자)").
  { exists "Engraving", "10".
    repeat split; eexists; split; reflexivity. }
  assert (S4 : spec_standard_line sample_TypeError_message sample_large_Number_toString standard_entry
                 "  - Blue (ID: s1)").
  { exists VUndefined, (VStr "Blue"), "Blue", "s1".
    repeat split. eexists; split; reflexivity. }
  split; [constructor|]. split; [exact S1|]. split; [exact S4|].
  apply (C6_sections_in_order sample_TypeError_message sample_StringToNumber_gt0 sample_large_Number_toString
           report_fixture
           [simple_entry] [combination_entry] [VStr "Color"; VStr "Size"]
           [custom_entry] [standard_entry]
           ["  - Color: Red (ID: 1)"] ["  - 조합: Red/L (ID: c1, 재고: 5개)"]
           ["  - Engraving (글자수 제한: 10자)"] ["  - Blue (ID: s1)"]
           "Color, Size");
    try (right; split); repeat constructor; assumption.
Defined.

Lemma C7_group_names_once_witness :
  lookup_prop "optionCombinations" combination_fixture = VArr [combination_entry]
  /\ call_join sample_TypeError_message sample_large_Number_toString (VArr [VStr "Color"; VStr "Size"]) ", "
     = Returns "Color, Size"
  /\ combination_section sample_TypeError_message sample_StringToNumber_gt0 sample_large_Number_toString
       (VObj combination_fixture)
     = (logged
          [combination_header; group_names_prefix +:+ "Color, Size";
           "  - 조합: Red/L (ID: c1, 재고: 5개)"],
        Normal tt).
Proof.
  split; [reflexivity|]. split; [reflexivity|].
  refine (proj1 (C7_group_names_once sample_TypeError_message
                   sample_StringToNumber_gt0 sample_large_Number_toString combination_fixture
                   [combination_entry] [VStr "Color"; VStr "Size"]
                   "Color, Size" ["  - 조합: Red/L (ID: c1, 재고: 5개)"]
                   eq_refl _ _ eq_refl _)).
  - discriminate.
  - constructor.
  - repeat constructor.
Defined.

Lemma C1_no_entries_no_sections_witness :
  no_entries no_entries_fixture
  /\ formatter sample_TypeError_message sample_StringToNumber_gt0 sample_large_Number_toString
       (VObj no_entries_fixture)
     = ([ConsoleLog [VStr raw_data_header];
         ConsoleLog [JSON_stringify sample_large_Number_toString (VObj no_entries_fixture)];
         ConsoleLog [VStr breakdown_header]],
        Normal tt).
Proof.
  assert (H : no_entries no_entries_fixture) by (repeat split; constructor).
  split; [exact H|].
  exact (proj1 (C1_no_entries_no_sections sample_TypeError_message
                  sample_StringToNumber_gt0 sample_large_Number_toString no_entries_fixture H)).
Defined.

(** The claim C1 as the specification states it fails on the empty
    [OptionInfo] object: its collections are all absent, and the formatter
    prints the two headers and the JSON text, not the notice. *)
Lemma C1_counterexample :
  no_entries []
  /\ fst (formatter sample_TypeError_message sample_StringToNumber_gt0 sample_large_Number_toString (VObj []))
     = [ConsoleLog [VStr raw_data_header];
        ConsoleLog [VStr "{}"];
        ConsoleLog [VStr breakdown_header]]
  /\ fst (formatter sample_TypeError_message sample_StringToNumber_gt0 sample_large_Number_toString (VObj []))
     <> [ConsoleLog [VStr no_options_notice]].
Proof.
  split; [repeat split; constructor|]. split; [reflexivity|]. discriminate.
Qed.

(** The claim C2 as the specification states it fails on an entry whose
    [optionName] is the empty string: that name is present and not [null],
    and the script shows [standardOptionName]. *)
Lemma C2_counterexample :
  first_non_null (lookup_prop "optionName" empty_name_entry)
    (lookup_prop "standardOptionName" empty_name_entry) = VStr ""
  /\ standard_name sample_TypeError_message (VObj empty_name_entry)
     = Returns (VStr "Blue")
  /\ standard_name sample_TypeError_message (VObj empty_name_entry)
     <> Returns (first_non_null (lookup_prop "optionName" empty_name_entry)
                   (lookup_prop "standardOptionName" empty_name_entry)).
Proof.
  split; [reflexivity|]. split; [reflexivity|]. discriminate.
Qed.

(** A whole run of the script on a product with the four kinds of option. *)
Example main_report :
  main sample_TypeError_message sample_StringToNumber_gt0 sample_large_Number_toString
    (sample_client (fun _ => Returns (product_with (VObj report_fixture))) echo_parser)
    sample_env
  = ((prelude "client-id" "client-secret" TARGET_PRODUCT_ID
      ++ [CallGetChannelProductDetail (VStr TARGET_PRODUCT_ID)]
      ++ logged [product_name_prefix +:+ "Shirt"; raw_data_header]
      ++ [ConsoleLog [JSON_stringify sample_large_Number_toString (VObj report_fixture)]]
      ++ logged
           [breakdown_header;
            simple_header; "  - Color: Red (ID: 1)";
            combination_header; group_names_prefix +:+ "Color, Size";
            "  - 조합: Red/L (ID: c1, 재고: 5개)";
            custom_header; "  - Engraving (글자수 제한: 10자)";
            standard_header; "  - Blue (ID: s1)";
            parser_header]
      ++ [CallParseOptionInfo (VObj report_fixture) (VStr TARGET_PRODUCT_ID);
          ConsoleLog [JSON_stringify sample_large_Number_toString (VObj [("productId", VStr TARGET_PRODUCT_ID)])]])%list,
     Fulfilled).
Proof. vm_compute. reflexivity. Qed.

(** Without [optionCombinationGroupNames] the line of the group names is
    printed with no name. *)
Example group_names_default :
  fst (combination_section sample_TypeError_message sample_StringToNumber_gt0 sample_large_Number_toString
         (VObj [("optionCombinations", VArr [combination_entry])]))
  = logged [combination_header; group_names_prefix;
            "  - 조합: Red/L (ID: c1, 재고: 5개)"].
Proof. vm_compute. reflexivity. Qed.

(** An entry that is [null] makes the property read throw; the error is
    caught after the header of its section and the run ends there. *)
Example null_entry_caught :
  main sample_TypeError_message sample_StringToNumber_gt0 sample_large_Number_toString
    (sample_client
       (fun _ => Returns (product_with (VObj [("optionSimple", VArr [VNull])])))
       echo_parser)
    sample_env
  = ((prelude "client-id" "client-secret" TARGET_PRODUCT_ID
      ++ [CallGetChannelProductDetail (VStr TARGET_PRODUCT_ID)]
      ++ logged [product_name_prefix +:+ "Shirt"; raw_data_header]
      ++ [ConsoleLog [JSON_stringify sample_large_Number_toString (VObj [("optionSimple", VArr [VNull])])]]
      ++ logged [breakdown_header; simple_header]
      ++ [ConsoleError
            [VStr error_prefix;
             VStr "Cannot read properties of null (reading 'groupName')"]])%list,
     Fulfilled).
Proof. vm_compute. reflexivity. Qed.

(** A failure of the parser is caught like a failure of the fetch. *)
Example parser_failure_caught :
  main sample_TypeError_message sample_StringToNumber_gt0 sample_large_Number_toString
    (sample_client (fun _ => Returns (product_with (VObj [])))
       (fun _ _ => Throws (mkError (VStr "unsupported"))))
    sample_env
  = ((prelude "client-id" "client-secret" TARGET_PRODUCT_ID
      ++ [CallGetChannelProductDetail (VStr TARGET_PRODUCT_ID)]
      ++ logged [product_name_prefix +:+ "Shirt"; raw_data_header; "{}";
                 breakdown_header; parser_header]
      ++ [CallParseOptionInfo (VObj []) (VStr TARGET_PRODUCT_ID);
          ConsoleError [VStr error_prefix; VStr "unsupported"]])%list,
     Fulfilled).
Proof. vm_compute. reflexivity. Qed.

(** ** Closed examples of the further properties *)

Lemma run_report_complete_witness :
  credentials sample_env "client-id" "client-secret"
  /\ option_sections sample_TypeError_message sample_StringToNumber_gt0 sample_large_Number_toString
       (VObj combination_fixture)
     = (logged [combination_header; group_names_prefix +:+ "Color, Size";
                "  - 조합: Red/L (ID: c1, 재고: 5개)"],
        Normal tt)
  /\ getProductOptionExample sample_TypeError_message sample_StringToNumber_gt0 sample_large_Number_toString
       (sample_client (fun _ => Returns (product_with (VObj combination_fixture)))
          echo_parser)
       sample_env TARGET_PRODUCT_ID
     = ((report_prefix sample_large_Number_toString "client-id" "client-secret" TARGET_PRODUCT_ID "Shirt"
           (VObj combination_fixture)
         ++ logged [combination_header; group_names_prefix +:+ "Color, Size";
                    "  - 조합: Red/L (ID: c1, 재고: 5개)"]
         ++ [ConsoleLog [VStr parser_header];
             CallParseOptionInfo (VObj combination_fixture) (VStr TARGET_PRODUCT_ID);
             ConsoleLog [JSON_stringify sample_large_Number_toString (VObj [("productId", VStr TARGET_PRODUCT_ID)])]])%list,
        Fulfilled).
Proof.
  split; [exact sample_credentials|]. split; [reflexivity|].
  exact (run_report_complete sample_TypeError_message sample_StringToNumber_gt0 sample_large_Number_toString
           (sample_client (fun _ => Returns (product_with (VObj combination_fixture)))
              echo_parser)
           sample_env TARGET_PRODUCT_ID "client-id" "client-secret"
           (product_with (VObj combination_fixture)) (VObj combination_fixture)
           (VObj [("productId", VStr TARGET_PRODUCT_ID)]) "Shirt"
           (logged [combination_header; group_names_prefix +:+ "Color, Size";
                    "  - 조합: Red/L (ID: c1, 재고: 5개)"])
           sample_credentials eq_refl eq_refl eq_refl eq_refl eq_refl eq_refl eq_refl).
Defined.

Lemma run_parser_failure_witness :
  credentials sample_env "client-id" "client-secret"
  /\ is_nullish (mkError (VStr "unsupported")) = false
  /\ getProductOptionExample sample_TypeError_message sample_StringToNumber_gt0 sample_large_Number_toString
       (sample_client (fun _ => Returns (product_with (VObj no_entries_fixture)))
          (fun _ _ => Throws (mkError (VStr "unsupported"))))
       sample_env TARGET_PRODUCT_ID
     = ((report_prefix sample_large_Number_toString "client-id" "client-secret" TARGET_PRODUCT_ID "Shirt"
           (VObj no_entries_fixture)
         ++ []
         ++ [ConsoleLog [VStr parser_header];
             CallParseOptionInfo (VObj no_entries_fixture) (VStr TARGET_PRODUCT_ID);
             ConsoleError [VStr error_prefix; VStr "unsupported"]])%list,
        Fulfilled).
Proof.
  split; [exact sample_credentials|]. split; [reflexivity|].
  exact (run_parser_failure sample_TypeError_message sample_StringToNumber_gt0 sample_large_Number_toString
           (sample_client (fun _ => Returns (product_with (VObj no_entries_fixture)))
              (fun _ _ => Throws (mkError (VStr "unsupported"))))
           sample_env TARGET_PRODUCT_ID "client-id" "client-secret"
           (product_with (VObj no_entries_fixture)) (VObj no_entries_fixture)
           "Shirt" [] (mkError (VStr "unsupported"))
           sample_credentials eq_refl eq_refl eq_refl eq_refl eq_refl eq_refl eq_refl
           eq_refl).
Defined.

Lemma run_report_failure_witness :
  credentials sample_env "client-id" "client-secret"
  /\ option_sections sample_TypeError_message sample_StringToNumber_gt0 sample_large_Number_toString
       (VObj null_entry_fixture)
     = (logged [simple_header; "  - Color: Red (ID: 1)"],
        Throw (TypeError sample_TypeError_message
                 (cannot_read_properties VNull "groupName")))
  /\ parse_calls
       (fst (getProductOptionExample sample_TypeError_message
               sample_StringToNumber_gt0 sample_large_Number_toString
               (sample_client (fun _ => Returns (product_with (VObj null_entry_fixture)))
                  echo_parser)
               sample_env TARGET_PRODUCT_ID))
     = [].
Proof.
  split; [exact sample_credentials|]. split; [reflexivity|].
  exact (proj2 (run_report_failure sample_TypeError_message sample_StringToNumber_gt0 sample_large_Number_toString
                  (sample_client
                     (fun _ => Returns (product_with (VObj null_entry_fixture)))
                     echo_parser)
                  sample_env TARGET_PRODUCT_ID "client-id" "client-secret"
                  (product_with (VObj null_entry_fixture)) (VObj null_entry_fixture)
                  "Shirt" (logged [simple_header; "  - Color: Red (ID: 1)"])
                  (TypeError sample_TypeError_message
                     (cannot_read_properties VNull "groupName"))
                  sample_credentials eq_refl eq_refl eq_refl eq_refl eq_refl eq_refl)).
Defined.

Lemma simple_section_stops_witness :
  lookup_prop "optionSimple" null_entry_fixture
  = VArr ([simple_entry] ++ VNull :: [simple_entry])
  /\ simple_line sample_TypeError_message sample_large_Number_toString VNull
     = Throws (TypeError sample_TypeError_message
                 (cannot_read_properties VNull "groupName"))
  /\ option_sections sample_TypeError_message sample_StringToNumber_gt0 sample_large_Number_toString
       (VObj null_entry_fixture)
     = (logged [simple_header; "  - Color: Red (ID: 1)"],
        Throw (TypeError sample_TypeError_message
                 (cannot_read_properties VNull "groupName"))).
Proof.
  split; [reflexivity|]. split; [reflexivity|].
  refine (proj2 (simple_section_stops sample_TypeError_message
                   sample_StringToNumber_gt0 sample_large_Number_toString null_entry_fixture
                   [simple_entry] VNull [simple_entry] ["  - Color: Red (ID: 1)"]
                   (TypeError sample_TypeError_message
                      (cannot_read_properties VNull "groupName"))
                   eq_refl _ eq_refl)).
  repeat constructor.
Defined.

Lemma group_names_not_an_array_witness :
  truthy (VStr "Color") = true
  /\ combination_section sample_TypeError_message sample_StringToNumber_gt0 sample_large_Number_toString
       (VObj string_group_names_fixture)
     = ([ConsoleLog [VStr combination_header]],
        Throw (mkError (VStr "join is not a function"))).
Proof.
  split; [reflexivity|].
  refine (group_names_not_an_array sample_TypeError_message sample_StringToNumber_gt0 sample_large_Number_toString
            string_group_names_fixture combination_entry [] (VStr "Color")
            eq_refl eq_refl eq_refl _).
  intros elems. discriminate.
Defined.

Lemma group_names_falsy_witness :
  truthy (lookup_prop "optionCombinationGroupNames" false_group_names_fixture) = false
  /\ combination_section sample_TypeError_message sample_StringToNumber_gt0 sample_large_Number_toString
       (VObj false_group_names_fixture)
     = (logged [combination_header; group_names_prefix;
                "  - 조합: Red/L (ID: c1, 재고: 5개)"],
        Normal tt).
Proof.
  split; [reflexivity|].
  refine (group_names_falsy sample_TypeError_message sample_StringToNumber_gt0 sample_large_Number_toString
            false_group_names_fixture combination_entry []
            ["  - 조합: Red/L (ID: c1, 재고: 5개)"] eq_refl eq_refl _).
  repeat constructor.
Defined.

Lemma empty_detail_is_a_product_witness :
  credentials sample_env "client-id" "client-secret"
  /\ truthy (VObj []) = true
  /\ getProductOptionExample sample_TypeError_message sample_StringToNumber_gt0 sample_large_Number_toString
       (sample_client (fun _ => Returns (VObj [])) echo_parser)
       sample_env TARGET_PRODUCT_ID
     = ([Construct (VStr "client-id") (VStr "client-secret");
         ConsoleLog [VStr (start_message TARGET_PRODUCT_ID)];
         CallGetChannelProductDetail (VStr TARGET_PRODUCT_ID);
         ConsoleLog [VStr (product_name_prefix +:+ "undefined")];
         ConsoleLog [VStr no_options_notice]],
        Fulfilled).
Proof.
  split; [exact sample_credentials|]. split; [reflexivity|].
  exact (empty_detail_is_a_product sample_TypeError_message sample_StringToNumber_gt0 sample_large_Number_toString
           (sample_client (fun _ => Returns (VObj [])) echo_parser)
           sample_env TARGET_PRODUCT_ID "client-id" "client-secret" []
           sample_credentials eq_refl eq_refl eq_refl).
Defined.

Lemma run_starts_witness :
  credentials sample_env "client-id" "client-secret"
  /\ exists rest,
       fst (getProductOptionExample sample_TypeError_message sample_StringToNumber_gt0 sample_large_Number_toString
              (sample_client (fun _ => Returns VNull) echo_parser)
              sample_env TARGET_PRODUCT_ID)
       = (prelude "client-id" "client-secret" TARGET_PRODUCT_ID
          ++ CallGetChannelProductDetail (VStr TARGET_PRODUCT_ID) :: rest)%list.
Proof.
  split; [exact sample_credentials|].
  exact (run_starts sample_TypeError_message sample_StringToNumber_gt0 sample_large_Number_toString
           (sample_client (fun _ => Returns VNull) echo_parser)
           sample_env TARGET_PRODUCT_ID "client-id" "client-secret"
           sample_credentials).
Defined.

Lemma sections_read_five_properties_witness :
  lookup_prop "optionCombinations" (("extra", VNum 1) :: combination_fixture)
  = lookup_prop "optionCombinations" combination_fixture
  /\ option_sections sample_TypeError_message sample_StringToNumber_gt0 sample_large_Number_toString
       (VObj (("extra", VNum 1) :: combination_fixture))
     = option_sections sample_TypeError_message sample_StringToNumber_gt0 sample_large_Number_toString
         (VObj combination_fixture).
Proof.
  split; [reflexivity|].
  exact (sections_read_five_properties sample_TypeError_message
           sample_StringToNumber_gt0 sample_large_Number_toString
           (("extra", VNum 1) :: combination_fixture) combination_fixture
           eq_refl eq_refl eq_refl eq_refl eq_refl).
Defined.
